(** * Slate: a verification development for the content pipeline

    A shallow embedding of [main.go] (package [main] of the static site
    generator) and theorems about its metadata-header parser, loader,
    URL deriver, site assembler, file discovery and static copy.

    Go strings and byte slices are both byte sequences; they are modelled
    by [string] (a list of 8-bit [ascii]).  Go [int] values that index
    them are [Z].  An index or slice expression out of range is a run-time
    panic, which the [go] monad below keeps explicit. *)

From Stdlib Require Import String Ascii List ZArith Lia Bool.
From Stdlib Require Import Permutation Sorted.
Import ListNotations.

Local Open Scope string_scope.
Local Open Scope Z_scope.

(** ** Errors

    Go's [error] values.  The two sentinels are the ones [filepath.WalkDir]
    compares its callback's result with. *)

Inductive error : Type :=
| SkipDir
| SkipAll
| ErrMsg (msg : string).

Definition Error (e : error) : string :=
  match e with
  | SkipDir => "skip this directory"
  | SkipAll => "skip everything and stop the walk"
  | ErrMsg msg => msg
  end.

(** ** Run-time panics *)

Inductive go (A : Type) : Type :=
| Done (a : A)
| Panic (msg : string).

Arguments Done {A} a.
Arguments Panic {A} msg.

Definition go_bind {A B} (m : go A) (k : A -> go B) : go B :=
  match m with
  | Done a => k a
  | Panic msg => Panic msg
  end.

Declare Scope go_scope.
Delimit Scope go_scope with go.
Notation "x <- m ;; k" := (go_bind m (fun x => k))
  (at level 61, m at next level, right associativity) : go_scope.
Notation "' pat <- m ;; k" :=
  (go_bind m (fun x => match x with pat => k end))
  (at level 61, pat pattern, m at next level, right associativity) : go_scope.

(** A Go call that returns [(value, error)]. *)
Inductive result (A : Type) : Type :=
| Ok (a : A)
| Err (e : error).

Arguments Ok {A} a.
Arguments Err {A} e.

(** ** Byte sequences: the parts of [strings] and [bytes] that are used *)

Module GoStr.

(** The byte 0x0A, written ['\n'] in Go. *)
Definition newline : ascii := "010"%char.
Definition nl : string := String newline EmptyString.

Definition len (s : string) : Z := Z.of_nat (String.length s).

Fixpoint drop (n : nat) (s : string) : string :=
  match n, s with
  | O, _ => s
  | S n', String _ s' => drop n' s'
  | S _, EmptyString => EmptyString
  end.

Fixpoint take (n : nat) (s : string) : string :=
  match n, s with
  | O, _ => EmptyString
  | S n', String c s' => String c (take n' s')
  | S _, EmptyString => EmptyString
  end.

(** [s[i]]: panics unless [0 <= i < len s]. *)
Definition at_ (s : string) (i : Z) : go ascii :=
  if (i <? 0) || (len s <=? i) then Panic "index out of range"
  else match String.get (Z.to_nat i) s with
       | Some c => Done c
       | None => Panic "index out of range"
       end.

(** [s[i:]]: panics unless [0 <= i <= len s]. *)
Definition slice_from (s : string) (i : Z) : go string :=
  if (i <? 0) || (len s <? i) then Panic "slice bounds out of range"
  else Done (drop (Z.to_nat i) s).

(** [s[:j]]: panics unless [0 <= j <= len s]. *)
Definition slice_to (s : string) (j : Z) : go string :=
  if (j <? 0) || (len s <? j) then Panic "slice bounds out of range"
  else Done (take (Z.to_nat j) s).

(** [strings.HasPrefix(s, p)] and [bytes.HasPrefix]. *)
Definition HasPrefix (s p : string) : bool := String.prefix p s.

(** [strings.HasSuffix(s, suffix)]:
    [len(s) >= len(suffix) && s[len(s)-len(suffix):] == suffix]. *)
Definition HasSuffix (s suffix : string) : bool :=
  (String.length suffix <=? String.length s)%nat
  && String.eqb (drop (String.length s - String.length suffix) s) suffix.

(** [strings.TrimPrefix(s, p)]. *)
Definition TrimPrefix (s p : string) : string :=
  if HasPrefix s p then drop (String.length p) s else s.

(** [strings.TrimSuffix(s, suffix)]. *)
Definition TrimSuffix (s suffix : string) : string :=
  if HasSuffix s suffix
  then take (String.length s - String.length suffix) s
  else s.

(** [bytes.Index(s, sep)] and [strings.Index]: the index of the first
    instance of [sep] in [s], or [-1]. *)
Fixpoint Index (s sep : string) : Z :=
  if String.prefix sep s then 0
  else match s with
       | EmptyString => -1
       | String _ s' =>
           let r := Index s' sep in
           if r =? -1 then -1 else r + 1
       end.

(** [strings.Contains(s, substr)] is [Index(s, substr) >= 0]. *)
Definition Contains (s substr : string) : bool := 0 <=? Index s substr.

(** [strings.ToLower] on one byte.  Only the ASCII letters are mapped;
    the suffix test that uses it looks at the letters [m] and [d] and
    the dot, which no other rune lowers to. *)
Definition lower (c : ascii) : ascii :=
  let n := nat_of_ascii c in
  if ((65 <=? n) && (n <=? 90))%nat then ascii_of_nat (n + 32) else c.

Fixpoint ToLower (s : string) : string :=
  match s with
  | EmptyString => EmptyString
  | String c s' => String (lower c) (ToLower s')
  end.

End GoStr.
Import GoStr.

(** ** Data model *)

(** [time.Time] restricted to what a date-only layout produces: a calendar
    day at midnight UTC.  The zero value is January 1, year 1. *)
Record Time : Type := mkTime { year : Z; month : Z; day : Z }.

Definition zeroTime : Time := mkTime 1 1 1.

Record Frontmatter : Type := mkFrontmatter {
  fmTitle : string;
  fmDate : string
}.

Definition zeroFrontmatter : Frontmatter := mkFrontmatter "" "".

Record Page : Type := mkPage {
  Path : string;
  URL : string;
  Title : string;
  Date : Time;
  Content : string
}.

(** ** Metadata header parser *)

Section Parser.

(** [yaml.Unmarshal(in, &fm)]: the decoder receives the target with its
    current fields, may overwrite them, and reports an error or [nil]. *)
Variable yaml_Unmarshal : string -> Frontmatter -> Frontmatter * option error.

Local Open Scope go_scope.

Definition parseFrontmatter (content : string) : go (Frontmatter * string) :=
  let fm := zeroFrontmatter in
  if negb (HasPrefix content "---") then Done (fm, content)
  else
    rest <- slice_from content 3 ;;
    let endIndex := Index rest (nl ++ "---") in
    if endIndex =? -1 then Done (fm, content)
    else
      yamlContent <- slice_to rest endIndex ;;
      c <- at_ yamlContent 0 ;;
      yamlContent <- (if Ascii.eqb c newline
                      then slice_from yamlContent 1
                      else Done yamlContent) ;;
      let fm := fst (yaml_Unmarshal yamlContent fm) in
      markdown <- slice_from rest (endIndex + 4) ;;
      markdown <- (if 0 <? len markdown
                   then c0 <- at_ markdown 0 ;;
                        if Ascii.eqb c0 newline
                        then slice_from markdown 1
                        else Done markdown
                   else Done markdown) ;;
      Done (fm, markdown).

End Parser.

(** ** The [time] package, for the layout ["2006-01-02"] *)

Module GoTime.

(** [t.After(u)] on calendar days: the order of the instants is the
    lexicographic order of year, month and day. *)
Definition compare (t u : Time) : comparison :=
  match year t ?= year u with
  | Eq => match month t ?= month u with
          | Eq => day t ?= day u
          | c => c
          end
  | c => c
  end.

Definition After (t u : Time) : bool :=
  match compare t u with
  | Gt => true
  | _ => false
  end.

(** [isDigit(s, i)]: in range and a decimal digit. *)
Definition isDigit (s : string) (i : nat) : bool :=
  match String.get i s with
  | Some c => let n := nat_of_ascii c in ((48 <=? n) && (n <=? 57))%nat
  | None => false
  end.

Definition digitVal (c : ascii) : Z := Z.of_nat (nat_of_ascii c) - 48.

(** [atoi] on a string that starts with a digit: every byte has to be a
    digit ([leadingInt] must consume the whole string). *)
Fixpoint atoi_from (s : string) (acc : Z) : option Z :=
  match s with
  | EmptyString => Some acc
  | String c s' =>
      if isDigit s 0 then atoi_from s' (acc * 10 + digitVal c) else None
  end.

Definition atoi (s : string) : option Z := atoi_from s 0.

(** [getnum(s, true)]: exactly two digits, and the rest. *)
Definition getnum_fixed (s : string) : option (Z * string) :=
  if negb (isDigit s 0) then None
  else if negb (isDigit s 1) then None
  else match s with
       | String c0 (String c1 rest) =>
           Some (digitVal c0 * 10 + digitVal c1, rest)
       | _ => None
       end.

(** [skip(value, "-")]: the literal separator of the layout. *)
Definition skip_dash (value : string) : option string :=
  match value with
  | String c rest => if Ascii.eqb c "-"%char then Some rest else None
  | EmptyString => None
  end.

Definition isLeap (y : Z) : bool :=
  (y mod 4 =? 0) && (negb (y mod 100 =? 0) || (y mod 400 =? 0)).

Definition daysIn (m y : Z) : Z :=
  if (m =? 2) && isLeap y then 29
  else if m =? 2 then 28
  else if (m =? 4) || (m =? 6) || (m =? 9) || (m =? 11) then 30
  else 31.

(** The chunks of the layout in order: four-digit year, dash, two-digit
    month (range checked at once), dash, two-digit day, no text left,
    and the day checked against the month last of all. *)
Definition parse_ymd (value : string) : option Time :=
  if (String.length value <? 4)%nat || negb (isDigit value 0) then None
  else
    match atoi (take 4 value) with
    | None => None
    | Some y =>
        match skip_dash (drop 4 value) with
        | None => None
        | Some value =>
            match getnum_fixed value with
            | None => None
            | Some (m, value) =>
                if (m <=? 0) || (12 <? m) then None
                else
                  match skip_dash value with
                  | None => None
                  | Some value =>
                      match getnum_fixed value with
                      | None => None
                      | Some (d, value) =>
                          if negb (String.eqb value "") then None
                          else if (d <? 1) || (daysIn m y <? d) then None
                          else Some (mkTime y m d)
                      end
                  end
            end
        end
    end.

(** [time.Parse("2006-01-02", value)]: every failure returns the zero
    [Time] together with the error. *)
Definition Parse (value : string) : Time * option error :=
  match parse_ymd value with
  | Some t => (t, None)
  | None => (zeroTime, Some (ErrMsg ("parsing time " ++ value)))
  end.

End GoTime.

(** ** URL and title deriver *)

(** [strings.ReplaceAll(s, old, new)] for one-byte [old] and [new]. *)
Fixpoint ReplaceAll1 (s : string) (old new : ascii) : string :=
  match s with
  | EmptyString => EmptyString
  | String c s' =>
      String (if Ascii.eqb c old then new else c) (ReplaceAll1 s' old new)
  end.

Definition pathToURL (path : string) : string :=
  let url := TrimPrefix path "content" in
  let url := TrimSuffix url ".md" ++ ".html" in
  url.

Section Loader.

Variable yaml_Unmarshal : string -> Frontmatter -> Frontmatter * option error.

(** [filepath.Base] and [strings.Title]. *)
Variable filepath_Base : string -> string.
Variable strings_Title : string -> string.

(** [goldmark.Convert(markdown, &buf)], returning the buffer. *)
Variable goldmark_Convert : string -> result string.

(** The file system the build reads: [os.ReadFile]. *)
Variable World : Type.
Variable os_ReadFile : string -> World -> result string.

Definition extractTitle (path : string) : string :=
  let base := filepath_Base path in
  let name := TrimSuffix base ".md" in
  let name := ReplaceAll1 name "_"%char " "%char in
  let name := ReplaceAll1 name "-"%char " "%char in
  strings_Title name.

Local Open Scope go_scope.

(** The body of the loop of [generateHtml]: the page of one file. *)
Definition loadPage (w : World) (file : string) : go (result Page) :=
  match os_ReadFile file w with
  | Err e => Done (Err e)
  | Ok content =>
      '(fm, markdown) <- parseFrontmatter yaml_Unmarshal content ;;
      match goldmark_Convert markdown with
      | Err e => Done (Err e)
      | Ok buf =>
          let title := fmTitle fm in
          let title :=
            if String.eqb title "" then extractTitle file else title in
          let date := zeroTime in
          let date :=
            if negb (String.eqb (fmDate fm) "")
            then fst (GoTime.Parse (fmDate fm))
            else date in
          Done (Ok (mkPage file (pathToURL file) title date buf))
      end
  end.

Fixpoint generateHtml_from (w : World) (markdownFiles : list string)
    (pages : list Page) : go (result (list Page)) :=
  match markdownFiles with
  | [] => Done (Ok pages)
  | file :: files' =>
      r <- loadPage w file ;;
      match r with
      | Err e => Done (Err e)
      | Ok page => generateHtml_from w files' (pages ++ [page])%list
      end
  end.

Definition generateHtml (w : World) (markdownFiles : list string)
    : go (result (list Page)) :=
  generateHtml_from w markdownFiles [].

End Loader.

(** ** File discovery *)

(** What [os.Lstat] and [os.ReadDir] show of a tree: an entry that is not
    a directory, or a directory with the entries [os.ReadDir] returns for
    it (sorted by file name, possibly cut short) and the error it returns
    with them, if any. *)
#[warnings="-register-all"]
Inductive DirEntry : Type :=
| File (name : string)
| Dir (name : string) (entries : list DirEntry) (readErr : option error).

Definition IsDir (d : DirEntry) : bool :=
  match d with
  | Dir _ _ _ => true
  | File _ => false
  end.

Definition Name (d : DirEntry) : string :=
  match d with
  | Dir name _ _ => name
  | File name => name
  end.

(** [filepath.Join(path, name)] for a clean [path] and an entry name. *)
Definition Join (path name : string) : string := path ++ "/" ++ name.

Section WalkDir.

(** The state the callback closes over. *)
Context {S : Type}.

(** [fs.WalkDirFunc]; the entry is [nil] when [os.Lstat] of the root
    failed. *)
Variable fn : string -> option DirEntry -> option error -> S
              -> go (S * option error).

Local Open Scope go_scope.

(** The loop [for _, d1 := range dirs] of [walkDir], over the function
    it calls for each entry. *)
Fixpoint rangeDirs (walk : string -> DirEntry -> S -> go (S * option error))
    (path : string) (dirs : list DirEntry) (s : S)
    : go (S * option error) :=
  match dirs with
  | [] => Done (s, None)
  | d1 :: dirs' =>
      let path1 := Join path (Name d1) in
      '(s, err) <- walk path1 d1 s ;;
      match err with
      | Some SkipDir => Done (s, None)
      | Some e => Done (s, Some e)
      | None => rangeDirs walk path dirs' s
      end
  end.

Fixpoint walkDir (path : string) (d : DirEntry) (s : S) {struct d}
    : go (S * option error) :=
  '(s, err) <- fn path (Some d) None s ;;
  match err, d with
  | Some SkipDir, Dir _ _ _ => Done (s, None)
  | Some e, _ => Done (s, Some e)
  | None, File _ => Done (s, None)
  | None, Dir _ dirs readErr =>
      '(s, err) <- match readErr with
                   | Some e => fn path (Some d) (Some e) s
                   | None => Done (s, None)
                   end ;;
      match err with
      | Some SkipDir => Done (s, None)
      | Some e => Done (s, Some e)
      | None => rangeDirs walkDir path dirs s
      end
  end.

(** [filepath.WalkDir(root, fn)], given what [os.Lstat(root)] returns. *)
Definition WalkDir (lstat : result DirEntry) (root : string) (s : S)
    : go (S * option error) :=
  '(s, err) <- match lstat with
               | Err e => fn root None (Some e) s
               | Ok info => walkDir root info s
               end ;;
  match err with
  | Some SkipDir | Some SkipAll => Done (s, None)
  | _ => Done (s, err)
  end.

End WalkDir.

(** [fmt.Println(a, b, ...)]: the operands separated by spaces. *)
Definition line (operands : list string) : string :=
  String.concat " " operands.

(** The callback of [findMarkdownFiles]; its state is the [files] slice
    it appends to and the lines printed so far. *)
Definition walkFn (path : string) (d : option DirEntry) (err : option error)
    (s : list string * list string) : go ((list string * list string) * option error) :=
  let '(files, out) := s in
  match err with
  | Some e =>
      Done ((files,
             (out ++ [line ["Warning: could not access"; path; "-"; Error e]])%list),
            None)
  | None =>
      match d with
      | None => Panic "invalid memory address or nil pointer dereference"
      | Some d =>
          if IsDir d then Done (s, None)
          else if HasSuffix (ToLower path) ".md"
               then Done (((files ++ [path])%list, out), None)
               else Done (s, None)
      end
  end.

(** [findMarkdownFiles(root)], given the tree under [root] and the lines
    already printed; returns the files, the error and the lines printed. *)
Definition findMarkdownFiles (lstat : result DirEntry) (root : string)
    (out : list string) : go ((list string * option error) * list string) :=
  go_bind (WalkDir walkFn lstat root ([], out))
    (fun r => let '((files, out), err) := r in Done ((files, err), out)).

(** ** Site assembler *)

(** [homePage.URL = url] through the pointer into [pages]. *)
Definition set_URL (p : Page) (url : string) : Page :=
  mkPage (Path p) url (Title p) (Date p) (Content p).

Fixpoint update_at {A} (i : nat) (f : A -> A) (l : list A) : list A :=
  match l, i with
  | [], _ => []
  | x :: l', O => f x :: l'
  | x :: l', Datatypes.S i' => x :: update_at i' f l'
  end.

(** The classification loop of [build], from index [i] on.  [homePage] is
    the pointer [&pages[i]], kept as the index it points at; [blogPosts]
    receives copies. *)
Fixpoint classify_from (i : nat) (pages : list Page)
    (homePage : option nat) (blogPosts : list Page)
    : option nat * list Page :=
  match pages with
  | [] => (homePage, blogPosts)
  | page :: pages' =>
      if HasSuffix (Path page) "index.md"
      then classify_from (Datatypes.S i) pages' (Some i) blogPosts
      else if Contains (Path page) "/blog/"
           then classify_from (Datatypes.S i) pages' homePage
                  (blogPosts ++ [page])%list
           else classify_from (Datatypes.S i) pages' homePage blogPosts
  end.

Definition classify (pages : list Page) : option nat * list Page :=
  classify_from 0 pages None [].

(** The comparison [build] hands to [sort.Slice]:
    [blogPosts[i].Date.After(blogPosts[j].Date)]. *)
Definition newerFirst (a b : Page) : bool := GoTime.After (Date a) (Date b).

(** [sort.Slice]'s insertion sort ([insertionSortLessFunc]), the routine
    it runs on slices of at most twelve elements: each element moves left
    while it is less than its left neighbour. *)
Section InsertionSort.

Context {A : Type}.
Variable less : A -> A -> bool.

(** [sorted_rev] is the sorted prefix [data[a:i]] right to left; [x] is
    [data[i]] on its way down. *)
Fixpoint sift (x : A) (sorted_rev : list A) : list A :=
  match sorted_rev with
  | [] => [x]
  | y :: rest => if less x y then y :: sift x rest else x :: y :: rest
  end.

Fixpoint insertionSort_from (sorted_rev todo : list A) : list A :=
  match todo with
  | [] => rev sorted_rev
  | x :: todo' => insertionSort_from (sift x sorted_rev) todo'
  end.

Definition insertionSort (data : list A) : list A :=
  insertionSort_from [] data.

End InsertionSort.

(** ** Build orchestrator *)

(** The data context a template is executed with. *)
Inductive tmplData : Type :=
| PageData (page : Page)
| PostsData (posts : list Page).

(** How a statement of [build] ends: execution goes on, the function has
    returned, or the program has panicked. *)
Inductive outcome (A : Type) : Type :=
| Next (a : A)
| Returned
| Crashed (msg : string).

Arguments Next {A} a.
Arguments Returned {A}.
Arguments Crashed {A} msg.

Section Build.

Variable yaml_Unmarshal : string -> Frontmatter -> Frontmatter * option error.
Variable filepath_Base : string -> string.
Variable strings_Title : string -> string.
Variable goldmark_Convert : string -> result string.

(** The file system.  Reading leaves it as it is; the calls that write
    return the file system they leave behind. *)
Variable World : Type.
Variable os_ReadFile : string -> World -> result string.
(** [os.IsNotExist(err)] for the [err] of [os.Stat(name)]. *)
Variable os_Stat_IsNotExist : string -> World -> bool.
Variable os_Lstat : string -> World -> result DirEntry.
Variable os_MkdirAll : string -> World -> World * option error.
Variable os_Create : string -> World -> World * option error.
Variable os_WriteFile : string -> string -> World -> World * option error.
Variable filepath_Dir : string -> string.

(** [html/template]: [template.ParseFiles], and [tmpl.Execute] writing
    to the file created at the given path. *)
Variable Template : Type.
Variable template_ParseFiles : string -> World -> result Template.
Variable tmpl_Execute : Template -> string -> tmplData -> World
                        -> World * option error.

(** [sort.Slice(x, less)], returning the slice it leaves. *)
Variable sort_Slice : forall A : Type, list A -> (A -> A -> bool) -> list A.

Record State : Type := mkState {
  world : World;
  stdout : list string
}.

Definition M (A : Type) : Type := State -> outcome A * State.

Definition ret {A} (a : A) : M A := fun st => (Next a, st).

Definition bind {A B} (m : M A) (k : A -> M B) : M B :=
  fun st =>
    match m st with
    | (Next a, st') => k a st'
    | (Returned, st') => (Returned, st')
    | (Crashed msg, st') => (Crashed msg, st')
    end.

(** The statement [return]. *)
Definition exit {A} : M A := fun st => (Returned, st).

Declare Scope build_scope.
Local Notation "x <- m ;; k" := (bind m (fun x => k))
  (at level 61, m at next level, right associativity) : build_scope.
Local Notation "m ;; k" := (bind m (fun _ => k))
  (at level 61, right associativity) : build_scope.
Local Open Scope build_scope.

Definition reads {A} (f : World -> A) : M A :=
  fun st => (Next (f (world st)), st).

Definition writes (f : World -> World * option error) : M (option error) :=
  fun st => let '(w, err) := f (world st) in
            (Next err, mkState w (stdout st)).

Definition runs {A} (f : World -> go A) : M A :=
  fun st => match f (world st) with
            | Done a => (Next a, st)
            | Panic msg => (Crashed msg, st)
            end.

Definition Println (operands : list string) : M unit :=
  fun st => (Next tt, mkState (world st) (stdout st ++ [line operands])).

(** [if err != nil { fmt.Println(msg, err); return }]. *)
Definition check (err : option error) (msg : string) : M unit :=
  match err with
  | Some e => Println [msg; Error e] ;; exit
  | None => ret tt
  end.

Definition checked {A} (r : result A) (msg : string) : M A :=
  match r with
  | Err e => Println [msg; Error e] ;; exit
  | Ok a => ret a
  end.

Definition renderPage (tmpl : Template) (page : Page) (outputPath : string)
    : M (option error) :=
  err <- writes (os_MkdirAll (filepath_Dir outputPath)) ;;
  match err with
  | Some e => ret (Some e)
  | None =>
      err <- writes (os_Create outputPath) ;;
      match err with
      | Some e => ret (Some e)
      | None =>
          err <- writes (tmpl_Execute tmpl outputPath (PageData page)) ;;
          match err with
          | Some e => ret (Some e)
          | None => Println ["Generated:"; outputPath] ;; ret None
          end
      end
  end.

Definition renderBlogIndex (tmpl : Template) (posts : list Page)
    : M (option error) :=
  let outputPath := "public/blog/index.html" in
  err <- writes (os_MkdirAll "public/blog") ;;
  match err with
  | Some e => ret (Some e)
  | None =>
      err <- writes (os_Create outputPath) ;;
      match err with
      | Some e => ret (Some e)
      | None =>
          err <- writes (tmpl_Execute tmpl outputPath (PostsData posts)) ;;
          match err with
          | Some e => ret (Some e)
          | None => Println ["Generated:"; outputPath] ;; ret None
          end
      end
  end.

Fixpoint printFiles (markdownFiles : list string) : M unit :=
  match markdownFiles with
  | [] => ret tt
  | file :: files' => Println [" -"; file] ;; printFiles files'
  end.

Fixpoint renderPosts (postTmpl : Template) (blogPosts : list Page)
    : M unit :=
  match blogPosts with
  | [] => ret tt
  | post :: posts' =>
      let outputPath := "public" ++ URL post in
      err <- renderPage postTmpl post outputPath ;;
      check err "Error rendering blog post:" ;;
      renderPosts postTmpl posts'
  end.

(** The home page as [build] renders it: the URL is overwritten through
    the pointer, then the pointer is dereferenced. *)
Definition homeOf (pages : list Page) (homePage : nat) : option Page :=
  nth_error (update_at homePage (fun p => set_URL p "/index.html") pages)
            homePage.

Definition renderHome (homeTmpl : Template) (pages : list Page)
    (homePage : option nat) : M unit :=
  match homePage with
  | None => ret tt
  | Some i =>
      match homeOf pages i with
      | None => fun st => (Crashed "nil pointer dereference", st)
      | Some home =>
          err <- renderPage homeTmpl home "public/index.html" ;;
          check err "Error rendering home page:"
      end
  end.

(** [build] as far as the parsed templates: the directory checks, the
    discovery, the loader and the three templates. *)
Definition build_load : M (list Page * (Template * Template * Template)) :=
  missing <- reads (os_Stat_IsNotExist "content") ;;
  (if missing : bool
   then Println ["Missing content/ directory. Did you run `slate init`?"] ;;
        exit
   else ret tt) ;;
  missing <- reads (os_Stat_IsNotExist "templates") ;;
  (if missing : bool
   then Println ["Missing templates/ directory. Did you run `slate init`?"] ;;
        exit
   else ret tt) ;;
  found <- (fun st =>
              match findMarkdownFiles (os_Lstat "content" (world st))
                      "content" (stdout st) with
              | Done (r, out) => (Next r, mkState (world st) out)
              | Panic msg => (Crashed msg, st)
              end) ;;
  let '(markdownFiles, err) := found in
  check err "Error finding markdown files:" ;;
  Println ["Found markdown files:"] ;;
  printFiles markdownFiles ;;
  r <- runs (fun w => generateHtml yaml_Unmarshal filepath_Base
                        strings_Title goldmark_Convert World os_ReadFile
                        w markdownFiles) ;;
  pages <- checked r "Error generating HTML:" ;;
  r <- reads (template_ParseFiles "templates/home.html") ;;
  homeTmpl <- checked r "Error parsing home.html template:" ;;
  r <- reads (template_ParseFiles "templates/post.html") ;;
  postTmpl <- checked r "Error parsing post.html template:" ;;
  r <- reads (template_ParseFiles "templates/blog_index.html") ;;
  blogIndexTmpl <- checked r "Error parsing blog index template:" ;;
  ret (pages, (homeTmpl, postTmpl, blogIndexTmpl)).

(** [build] from the classification loop to the blog index. *)
Definition build_render (pages : list Page)
    (tmpls : Template * Template * Template) : M unit :=
  let '(homeTmpl, postTmpl, blogIndexTmpl) := tmpls in
  let '(homePage, blogPosts) := classify pages in
  let blogPosts := sort_Slice Page blogPosts newerFirst in
  renderHome homeTmpl pages homePage ;;
  renderPosts postTmpl blogPosts ;;
  err <- renderBlogIndex blogIndexTmpl blogPosts ;;
  check err "Error rendering blog index:".

(** The last block of [build]: copy static files to public. *)
Definition copy_static : M unit :=
  r <- reads (os_ReadFile "static/styles.css") ;;
  match r with
  | Ok content =>
      _ <- writes (os_WriteFile "public/styles.css" content) ;;
      Println ["Copied:"; "public/styles.css"]
  | Err _ => ret tt
  end.

Definition build : M unit :=
  loaded <- build_load ;;
  build_render (fst loaded) (snd loaded) ;;
  copy_static.

End Build.

Arguments mkState {World} world stdout.
Arguments world {World} s.
Arguments stdout {World} s.
Arguments ret {World A} a st.
Arguments bind {World A B} m k st.
Arguments exit {World A} st.
Arguments Println {World} operands st.
Arguments check {World} err msg st.

(** ** Project scaffolding *)

Section Init.

Variable World : Type.
Variable os_MkdirAll : string -> World -> World * option error.
Variable os_WriteFile : string -> string -> World -> World * option error.
(** [err == nil] for the [err] of [os.Stat(name)]. *)
Variable os_Stat_ok : string -> World -> bool.

(** The starter texts; their bytes play no part in what follows. *)
Variable starterIndexMd : string.
Variable starterBlogPost : string.
Variable starterHomeTemplate : string.
Variable starterPostTemplate : string.
Variable starterBlogIndexTemplate : string.
Variable starterCSS : string.

Local Notation "x <- m ;; k" := (bind m (fun x => k))
  (at level 61, m at next level, right associativity).
Local Notation "m ;; k" := (bind m (fun _ => k))
  (at level 61, right associativity).

Definition starterDirs : list string :=
  ["content"; "content/blog"; "templates"; "static"].

(** The entries of the map [files]. *)
Definition starterFiles : list (string * string) :=
  [("content/index.md", starterIndexMd);
   ("content/blog/hello.md", starterBlogPost);
   ("templates/home.html", starterHomeTemplate);
   ("templates/post.html", starterPostTemplate);
   ("templates/blog_index.html", starterBlogIndexTemplate);
   ("static/styles.css", starterCSS)].

(** The loop over [dirs]. *)
Fixpoint createDirs (dirs : list string) : M World unit :=
  match dirs with
  | [] => ret tt
  | dir :: dirs' =>
      err <- writes World (os_MkdirAll dir) ;;
      check err "Error creating directory:" ;;
      Println ["Created:"; dir ++ "/"] ;;
      createDirs dirs'
  end.

(** The loop over the map [files], in the order [range] yields its
    entries. *)
Fixpoint createFiles (entries : list (string * string)) : M World unit :=
  match entries with
  | [] => ret tt
  | (path, content) :: entries' =>
      found <- reads World (os_Stat_ok path) ;;
      if found : bool
      then Println ["Skipped (exists):"; path] ;;
           createFiles entries'
      else err <- writes World (os_WriteFile path content) ;;
           check err "Error creating file:" ;;
           Println ["Created:"; path] ;;
           createFiles entries'
  end.

(** [initProject], for the order in which [range] yields the entries of
    [files]; Go leaves that order open, so it is an argument. *)
Definition initProject (order : list (string * string)) : M World unit :=
  createDirs starterDirs ;;
  createFiles order ;;
  Println [nl ++ "Project initialized! Run `slate build` to generate your site."].

End Init.

(** ** [filepath.Base] and [strings.Title] on ASCII paths

    The two library functions [extractTitle] calls, for a system whose
    path separator is the slash and for text of ASCII bytes (on other
    bytes [strings.Title] works rune by rune, which is not modelled). *)

Module GoTitle.

Definition isLower (c : ascii) : bool :=
  let n := nat_of_ascii c in ((97 <=? n) && (n <=? 122))%nat.

Definition isUpper (c : ascii) : bool :=
  let n := nat_of_ascii c in ((65 <=? n) && (n <=? 90))%nat.

Definition isDecimal (c : ascii) : bool :=
  let n := nat_of_ascii c in ((48 <=? n) && (n <=? 57))%nat.

(** [isSeparator]: ASCII alphanumerics and the underscore are not
    separators, every other ASCII byte is. *)
Definition isSeparator (r : ascii) : bool :=
  negb (isDecimal r || isLower r || isUpper r || Ascii.eqb r "_").

(** [unicode.ToTitle] on an ASCII byte. *)
Definition ToTitle (r : ascii) : ascii :=
  if isLower r then ascii_of_nat (nat_of_ascii r - 32) else r.

(** The closure [Title] maps over the string; [prev] is the byte before. *)
Fixpoint Title_from (prev : ascii) (s : string) : string :=
  match s with
  | EmptyString => EmptyString
  | String r s' =>
      String (if isSeparator prev then ToTitle r else r) (Title_from r s')
  end.

Definition Title (s : string) : string := Title_from " " s.

(** [filepath.Base]: trailing slashes go, then everything up to the last
    slash; the empty path is ["."], a path of slashes is ["/"]. *)
Fixpoint stripTrailingSlashes (path : string) : string :=
  match path with
  | EmptyString => EmptyString
  | String c rest =>
      let rest' := stripTrailingSlashes rest in
      if Ascii.eqb c "/" && String.eqb rest' ""
      then EmptyString
      else String c rest'
  end.

Fixpoint hasSlash (s : string) : bool :=
  match s with
  | EmptyString => false
  | String c s' => Ascii.eqb c "/" || hasSlash s'
  end.

Fixpoint lastElement (path : string) : string :=
  match path with
  | EmptyString => EmptyString
  | String c rest =>
      if hasSlash rest then lastElement rest
      else if Ascii.eqb c "/" then rest
      else path
  end.

Definition Base (path : string) : string :=
  if String.eqb path "" then "."
  else
    let path := stripTrailingSlashes path in
    let path := lastElement path in
    if String.eqb path "" then "/" else path.

Fixpoint isASCII (s : string) : bool :=
  match s with
  | EmptyString => true
  | String c s' => (nat_of_ascii c <? 128)%nat && isASCII s'
  end.

End GoTitle.

(** ** Reference definitions

    What the theorems below compare the code with. *)

(** A byte sequence with one leading newline removed, if it has one. *)
Definition strip_newline (s : string) : string :=
  match s with
  | String c s' => if Ascii.eqb c newline then s' else s
  | EmptyString => EmptyString
  end.

(** The page of a file that is read, parsed and converted. *)
Definition pageOf (filepath_Base strings_Title : string -> string)
    (file : string) (fm : Frontmatter) (buf : string) : Page :=
  mkPage file (pathToURL file)
    (if String.eqb (fmTitle fm) ""
     then extractTitle filepath_Base strings_Title file
     else fmTitle fm)
    (if negb (String.eqb (fmDate fm) "")
     then fst (GoTime.Parse (fmDate fm))
     else zeroTime)
    buf.

(** The test of the discovery callback. *)
Definition isMarkdown (path : string) : bool :=
  HasSuffix (ToLower path) ".md".

(** The paths of the entries under [d] that are not directories, in the
    order of the walk. *)
Fixpoint walk_files (path : string) (d : DirEntry) : list string :=
  match d with
  | File _ => [path]
  | Dir _ entries _ =>
      flat_map (fun d1 => walk_files (Join path (Name d1)) d1) entries
  end.

(** The directories under [d] that could not be read, with the error, in
    the order of the walk. *)
Fixpoint walk_errors (path : string) (d : DirEntry) : list (string * error) :=
  match d with
  | File _ => []
  | Dir _ entries readErr =>
      (match readErr with
       | Some e => [(path, e)]
       | None => []
       end
       ++ flat_map (fun d1 => walk_errors (Join path (Name d1)) d1) entries)%list
  end.

(** What discovery is to return for a tree, and what it could not read. *)
Definition discovered (lstat : result DirEntry) (root : string) : list string :=
  match lstat with
  | Ok d => filter isMarkdown (walk_files root d)
  | Err _ => []
  end.

Definition unreadable (lstat : result DirEntry) (root : string)
    : list (string * error) :=
  match lstat with
  | Ok d => walk_errors root d
  | Err e => [(root, e)]
  end.

Definition warning (pe : string * error) : string :=
  line ["Warning: could not access"; fst pe; "-"; Error (snd pe)].

(** The requirement [sort.Slice] puts on [less]: a strict weak ordering. *)
Definition StrictWeak {A} (less : A -> A -> bool) : Prop :=
  (forall a, less a a = false)
  /\ (forall a b c, less a b = true -> less b c = true -> less a c = true)
  /\ (forall a b c, less a b = false -> less b c = false -> less a c = false).

(** What [sort.Slice] promises of the slice it leaves: the same elements,
    and no element less than one that comes before it.  It does not
    promise to keep equal elements in their order. *)
Definition SliceContract
    (sort : forall A : Type, list A -> (A -> A -> bool) -> list A) : Prop :=
  forall (A : Type) (x : list A) (less : A -> A -> bool),
    Permutation x (sort A x less)
    /\ (StrictWeak less ->
        StronglySorted (fun a b => less b a = false) (sort A x less)).

(** Pages whose path marks them as the home page, and as a blog post. *)
Definition isIndex (p : Page) : bool := HasSuffix (Path p) "index.md".

Definition isBlogPost (p : Page) : bool :=
  negb (isIndex p) && Contains (Path p) "/blog/".

(** A calendar day that the layout ["2006-01-02"] can express. *)
Definition validDay (t : Time) : Prop :=
  0 <= year t <= 9999
  /\ 1 <= month t <= 12
  /\ 1 <= day t <= GoTime.daysIn (month t) (year t).

(** A day written in the layout ["2006-01-02"]: four digits, a dash, two
    digits, a dash, two digits. *)
Definition digitChar (d : Z) : ascii := ascii_of_nat (48 + Z.to_nat d).

Definition two_digits (n : Z) : string :=
  String (digitChar (n / 10)) (String (digitChar (n mod 10)) EmptyString).

Definition four_digits (n : Z) : string :=
  String (digitChar (n / 1000))
    (String (digitChar (n / 100 mod 10))
       (String (digitChar (n / 10 mod 10))
          (String (digitChar (n mod 10)) EmptyString))).

Definition format_date (t : Time) : string :=
  four_digits (year t) ++ "-" ++ two_digits (month t) ++ "-"
  ++ two_digits (day t).

(** A step of the build that leaves the file system as it was. *)
Definition keeps_world {World A : Type} (m : M World A) : Prop :=
  forall st, world (snd (m st)) = world st.

(** The index of the last element of [l] that satisfies [f]. *)
Fixpoint last_index {A} (f : A -> bool) (l : list A) : option nat :=
  match l with
  | [] => None
  | x :: l' =>
      match last_index f l' with
      | Some j => Some (Datatypes.S j)
      | None => if f x then Some O else None
      end
  end.

(** ** Concrete collaborators

    Small stand-ins for the libraries and the file system, used to run the
    pipeline on concrete inputs. *)

Module Demo.

Fixpoint split_lines (s : string) : list string :=
  match s with
  | EmptyString => [EmptyString]
  | String c s' =>
      if Ascii.eqb c newline then EmptyString :: split_lines s'
      else match split_lines s' with
           | l :: ls => String c l :: ls
           | [] => [String c EmptyString]
           end
  end.

(** A decoder for block mappings of one [key: value] pair per line, the
    shape of a metadata header.  As [yaml.Unmarshal] does, it parses the
    whole document before it touches the target (a line without
    [": "] is a syntax error and leaves the target as it was), and while
    decoding it records a value that does not fit a string field (here a
    flow sequence [[...]]) as a type error, leaves that field alone and
    goes on with the remaining keys.  Unknown keys are ignored. *)
Definition decode_pair (ln : string) (acc : Frontmatter * option error)
    : Frontmatter * option error :=
  let '(fm, err) := acc in
  let i := Z.to_nat (Index ln ": ") in
  let key := take i ln in
  let value := drop (i + 2) ln in
  let known := String.eqb key "title" || String.eqb key "date" in
  if known && HasPrefix value "["
  then (fm, Some (ErrMsg "yaml: unmarshal errors: cannot unmarshal !!seq into string"))
  else if String.eqb key "title" then (mkFrontmatter value (fmDate fm), err)
  else if String.eqb key "date" then (mkFrontmatter (fmTitle fm) value, err)
  else (fm, err).

Definition flat_yaml (input : string) (fm : Frontmatter)
    : Frontmatter * option error :=
  let lns := filter (fun l => negb (String.eqb l "")) (split_lines input) in
  if forallb (fun l => 0 <=? Index l ": ") lns
  then fold_left (fun acc ln => decode_pair ln acc) lns (fm, None)
  else (fm, Some (ErrMsg "yaml: could not find expected ':'")).

(** [sort.Slice] as it behaves on short slices. *)
Definition sort_Slice (A : Type) (x : list A) (less : A -> A -> bool)
    : list A :=
  insertionSort less x.

(** A sort that meets [sort.Slice]'s contract and uses the freedom its
    documentation reserves: equal elements come out reversed. *)
Definition sort_Slice_reversing (A : Type) (x : list A)
    (less : A -> A -> bool) : list A :=
  insertionSort less (rev x).

(** An in-memory file system: paths and contents.  Writing the
    stylesheet into [public] is refused; everything else succeeds. *)
Definition World : Type := list (string * string).

Fixpoint lookup (name : string) (w : World) : option string :=
  match w with
  | [] => None
  | (n, c) :: w' => if String.eqb n name then Some c else lookup name w'
  end.

Definition os_ReadFile (name : string) (w : World) : result string :=
  match lookup name w with
  | Some c => Ok c
  | None => Err (ErrMsg ("open " ++ name ++ ": no such file or directory"))
  end.

Definition os_Stat_IsNotExist (name : string) (w : World) : bool := false.

Definition tree : DirEntry :=
  Dir "content"
    [Dir "blog" [File "hello.md"] None; File "index.md"] None.

Definition os_Lstat (name : string) (w : World) : result DirEntry :=
  Ok tree.

Definition os_MkdirAll (name : string) (w : World) : World * option error :=
  (w, None).

Definition os_Create (name : string) (w : World) : World * option error :=
  ((name, "") :: w, None).

Definition os_WriteFile (name data : string) (w : World)
    : World * option error :=
  if String.eqb name "public/styles.css"
  then (w, Some (ErrMsg "open public/styles.css: permission denied"))
  else ((name, data) :: w, None).

Definition tmpl_Execute (tmpl : string) (name : string) (data : tmplData)
    (w : World) : World * option error :=
  ((name, tmpl) :: w, None).

Definition id_string (s : string) : string := s.

Definition goldmark_Convert (markdown : string) : result string :=
  Ok ("<p>" ++ markdown ++ "</p>").

Definition hello_md : string :=
  "---" ++ nl ++ "title: Hello World" ++ nl ++ "date: 2025-01-17" ++ nl
  ++ "---" ++ nl ++ "Body text".

Definition disk : World :=
  [("content/index.md", "# Welcome");
   ("content/blog/hello.md", hello_md);
   ("templates/home.html", "home");
   ("templates/post.html", "post");
   ("templates/blog_index.html", "blog index");
   ("static/styles.css", "body {}")].

Definition generateHtml (w : World) (files : list string)
    : go (result (list Page)) :=
generateHtml flat_yaml id_string id_string goldmark_Convert World
  os_ReadFile w files.

Definition files : list string :=
["content/blog/hello.md"; "content/index.md"].

Definition pages : list Page :=
[mkPage "content/blog/hello.md" "/blog/hello.html" "Hello World"
   (mkTime 2025 1 17) "<p>Body text</p>";
 mkPage "content/index.md" "/index.html" "content/index" zeroTime
   "<p># Welcome</p>"].

(** The same disk without its templates, and without its stylesheet. *)
Definition disk_without_templates : World :=
[("content/index.md", "# Welcome");
 ("content/blog/hello.md", hello_md)].

Definition disk_without_stylesheet : World :=
[("content/index.md", "# Welcome");
 ("content/blog/hello.md", hello_md);
 ("templates/home.html", "home");
 ("templates/post.html", "post");
 ("templates/blog_index.html", "blog index")].

Definition os_Stat_ok (name : string) (w : World) : bool :=
match lookup name w with
| Some _ => true
| None => false
end.

Definition os_WriteFile_readonly (name data : string) (w : World)
    : World * option error :=
(w, Some (ErrMsg ("open " ++ name ++ ": read-only file system"))).

(** A disk on which one output file cannot be created. *)
Definition os_Create_full (name : string) (w : World) : World * option error :=
if String.eqb name "public/blog/b.html"
then (w, Some (ErrMsg "open public/blog/b.html: no space left on device"))
else ((name, "") :: w, None).

Definition build (st : State World) : outcome unit * State World :=
  build flat_yaml id_string id_string goldmark_Convert World os_ReadFile
    os_Stat_IsNotExist os_Lstat os_MkdirAll os_Create os_WriteFile
    id_string string os_ReadFile tmpl_Execute sort_Slice st.

End Demo.

(** * Theorems *)

(** ** Byte sequences *)

Lemma length_append (s t : string) :
  String.length (s ++ t) = (String.length s + String.length t)%nat.
Proof.
  induction s as [|c s IH]; simpl; [reflexivity | now rewrite IH].
Qed.

Lemma prefix_append (p r : string) : String.prefix p (p ++ r) = true.
Proof.
  induction p as [|c p IH]; simpl.
  - now destruct r.
  - destruct (ascii_dec c c) as [_|ne]; [exact IH | now elim ne].
Qed.

Lemma prefix_split (p s : string) :
  String.prefix p s = true -> s = p ++ drop (String.length p) s.
Proof.
  revert s; induction p as [|c p IH]; intros s H; simpl.
  - reflexivity.
  - destruct s as [|d s]; simpl in H; [discriminate|].
    destruct (ascii_dec c d) as [->|]; [|discriminate].
    f_equal. now apply IH.
Qed.

Lemma prefix_length (p s : string) :
  String.prefix p s = true -> (String.length p <= String.length s)%nat.
Proof.
  intros H. apply prefix_split in H. apply (f_equal String.length) in H.
  rewrite length_append in H. lia.
Qed.

Lemma drop_append (p r : string) : drop (String.length p) (p ++ r) = r.
Proof.
  induction p as [|c p IH]; simpl; [reflexivity | exact IH].
Qed.

Lemma take_append (p r : string) : take (String.length p) (p ++ r) = p.
Proof.
  induction p as [|c p IH]; simpl; [now destruct r | now rewrite IH].
Qed.

Lemma length_take (n : nat) (s : string) :
  (n <= String.length s)%nat -> String.length (take n s) = n.
Proof.
  revert s; induction n as [|n IH]; intros [|c s] H; simpl in *;
    try reflexivity; try lia.
  rewrite IH; lia.
Qed.

Lemma Index_nil (sep : string) :
  Index "" sep = if String.prefix sep "" then 0 else -1.
Proof. reflexivity. Qed.

Lemma Index_cons (c : ascii) (s sep : string) :
  Index (String c s) sep =
  if String.prefix sep (String c s) then 0
  else if Index s sep =? -1 then -1 else Index s sep + 1.
Proof. reflexivity. Qed.

Lemma Index_lower_bound (s sep : string) : -1 <= Index s sep.
Proof.
  induction s as [|c s IH]; [rewrite Index_nil | rewrite Index_cons].
  - destruct (String.prefix sep ""); lia.
  - destruct (String.prefix sep (String c s)); [lia|].
    destruct (Index s sep =? -1) eqn:E; lia.
Qed.

(** [Index] answers [-1] exactly when [sep] occurs nowhere in [s]. *)
Lemma Index_absent (s sep : string) :
  Index s sep = -1 <-> (forall pre post, s <> pre ++ sep ++ post).
Proof.
  induction s as [|c s IH]; [rewrite Index_nil | rewrite Index_cons].
  - destruct (String.prefix sep "") eqn:P.
    + split; [lia|]. intros H. exfalso.
      apply (H "" (drop (String.length sep) "")). simpl.
      now apply prefix_split.
    + split; [|reflexivity]. intros _ pre post E.
      destruct pre; simpl in E; [|discriminate].
      rewrite E in P. now rewrite prefix_append in P.
  - destruct (String.prefix sep (String c s)) eqn:P.
    + split; [lia|]. intros H. exfalso.
      apply (H "" (drop (String.length sep) (String c s))). simpl.
      now apply prefix_split.
    + pose proof (Index_lower_bound s sep) as L.
      destruct (Index s sep =? -1) eqn:E.
      * apply Z.eqb_eq in E. split; [|reflexivity]. intros _ pre post Q.
        destruct pre as [|d pre]; simpl in Q.
        -- rewrite Q in P. now rewrite prefix_append in P.
        -- injection Q as _ Q. now apply (proj1 IH E pre post).
      * apply Z.eqb_neq in E. split; [lia|]. intros H. exfalso.
        apply E, IH. intros pre post Q.
        apply (H (String c pre) post). simpl. now rewrite Q.
Qed.

(** When [Index] answers [n >= 0], [sep] stands at offset [n]. *)
Lemma Index_found (s sep : string) :
  0 <= Index s sep ->
  s = take (Z.to_nat (Index s sep)) s ++ sep
      ++ drop (Z.to_nat (Index s sep) + String.length sep) s.
Proof.
  induction s as [|c s IH]; [rewrite Index_nil | rewrite Index_cons].
  - destruct (String.prefix sep "") eqn:P; [|lia]. intros _. simpl.
    now apply prefix_split.
  - destruct (String.prefix sep (String c s)) eqn:P.
    + intros _. simpl. now apply prefix_split.
    + pose proof (Index_lower_bound s sep) as L.
      destruct (Index s sep =? -1) eqn:E; [lia|].
      apply Z.eqb_neq in E. intros _.
      replace (Z.to_nat (Index s sep + 1))
        with (Datatypes.S (Z.to_nat (Index s sep))) by lia.
      simpl. f_equal. apply IH. lia.
Qed.

Lemma Index_in_range (s sep : string) :
  0 <= Index s sep -> Index s sep + len sep <= len s.
Proof.
  induction s as [|c s IH]; [rewrite Index_nil | rewrite Index_cons].
  - destruct (String.prefix sep "") eqn:P; [|lia]. intros _.
    apply prefix_length in P. unfold len. simpl in *. lia.
  - destruct (String.prefix sep (String c s)) eqn:P.
    + intros _. apply prefix_length in P. unfold len. lia.
    + pose proof (Index_lower_bound s sep) as L.
      destruct (Index s sep =? -1) eqn:E; [lia|].
      apply Z.eqb_neq in E. intros _.
      unfold len in *. simpl String.length. lia.
Qed.

Lemma HasPrefix_length (s p : string) :
  HasPrefix s p = true -> len p <= len s.
Proof.
  intros H. apply prefix_length in H. unfold len. lia.
Qed.

Lemma go_bind_Done {A B} (a : A) (k : A -> go B) : go_bind (Done a) k = k a.
Proof. reflexivity. Qed.

Lemma slice_from_ok (s : string) (i : Z) :
  0 <= i <= len s -> slice_from s i = Done (drop (Z.to_nat i) s).
Proof.
  intros H. unfold slice_from.
  replace ((i <? 0) || (len s <? i)) with false; [reflexivity|].
  symmetry; apply orb_false_iff; split; apply Z.ltb_ge; lia.
Qed.

Lemma slice_to_ok (s : string) (j : Z) :
  0 <= j <= len s -> slice_to s j = Done (take (Z.to_nat j) s).
Proof.
  intros H. unfold slice_to.
  replace ((j <? 0) || (len s <? j)) with false; [reflexivity|].
  symmetry; apply orb_false_iff; split; apply Z.ltb_ge; lia.
Qed.

Lemma at_head (c : ascii) (s : string) : at_ (String c s) 0 = Done c.
Proof.
  unfold at_.
  replace ((0 <? 0) || (len (String c s) <=? 0)) with false; [reflexivity|].
  symmetry; apply orb_false_iff; split; [reflexivity|].
  apply Z.leb_gt. unfold len. simpl String.length. lia.
Qed.

(** Indexing an empty slice panics. *)
Lemma at_empty (i : Z) : at_ "" i = Panic "index out of range".
Proof.
  unfold at_. destruct (i <? 0) eqn:E; [reflexivity|].
  apply Z.ltb_ge in E.
  replace (len "" <=? i) with true; [reflexivity|].
  symmetry; apply Z.leb_le. unfold len. simpl. lia.
Qed.

(** The two places where the parser drops one leading newline. *)
Lemma strip_newline_slice (c : ascii) (s : string) :
  (if Ascii.eqb c newline then slice_from (String c s) 1
   else Done (String c s))
  = Done (strip_newline (String c s)).
Proof.
  simpl strip_newline. destruct (Ascii.eqb c newline); [|reflexivity].
  rewrite slice_from_ok; [reflexivity|].
  unfold len. simpl String.length. lia.
Qed.

(** ** Metadata header parser *)

Section ParserFacts.

Variable yaml_Unmarshal : string -> Frontmatter -> Frontmatter * option error.

(** Without the opening delimiter the input is the body. *)
Lemma parseFrontmatter_no_header (content : string) :
  HasPrefix content "---" = false ->
  parseFrontmatter yaml_Unmarshal content = Done (zeroFrontmatter, content).
Proof.
  intros H. unfold parseFrontmatter. now rewrite H.
Qed.

(** The shape of the result when the header is closed and its block is
    not empty: the decoder's fields and the text after the closing
    delimiter less one newline. *)
Lemma parseFrontmatter_closed (content : string) (n : Z) :
  HasPrefix content "---" = true ->
  Index (drop 3 content) (nl ++ "---") = n ->
  0 < n ->
  parseFrontmatter yaml_Unmarshal content =
  Done (fst (yaml_Unmarshal
               (strip_newline (take (Z.to_nat n) (drop 3 content)))
               zeroFrontmatter),
        strip_newline (drop (Z.to_nat n + 4) (drop 3 content))).
Proof.
  intros HP HI Hn. unfold parseFrontmatter. rewrite HP. cbn [negb].
  pose proof (HasPrefix_length _ _ HP) as L3.
  change (len "---") with 3 in L3.
  rewrite slice_from_ok by lia. rewrite go_bind_Done.
  change (Z.to_nat 3) with 3%nat. rewrite HI.
  replace (n =? -1) with false by (symmetry; apply Z.eqb_neq; lia).
  set (rest := drop 3 content) in *.
  assert (R : n + 4 <= len rest).
  { subst n. apply (Index_in_range rest (nl ++ "---")). lia. }
  rewrite slice_to_ok by lia. rewrite go_bind_Done.
  set (y := take (Z.to_nat n) rest).
  assert (Ly : String.length y = Z.to_nat n).
  { apply length_take. unfold len in R. lia. }
  destruct y as [|c y'] eqn:Ey; [simpl in Ly; lia|].
  rewrite at_head, go_bind_Done, strip_newline_slice, go_bind_Done.
  rewrite slice_from_ok by lia. rewrite go_bind_Done.
  replace (Z.to_nat (n + 4)) with (Z.to_nat n + 4)%nat by lia.
  set (md := drop (Z.to_nat n + 4) rest).
  destruct md as [|c0 md'] eqn:Em.
  - reflexivity.
  - replace (0 <? len (String c0 md')) with true
      by (symmetry; apply Z.ltb_lt; unfold len; simpl String.length; lia).
    rewrite at_head, go_bind_Done, strip_newline_slice, go_bind_Done.
    reflexivity.
Qed.

End ParserFacts.

(** C1 (code bug).  A header whose block is empty, the closing delimiter
    following the opening one at once as in ["---\n---\nbody"], makes
    [parseFrontmatter] panic: the block [rest[:0]] is empty and
    [yamlContent[0]] is read without the length test that guards
    [markdown[0]] a few lines below.  The claim asks for a return with
    empty fields and the body. *)
Theorem parseFrontmatter_empty_block_panics :
  forall (yaml_Unmarshal : string -> Frontmatter -> Frontmatter * option error)
         (after : string),
    parseFrontmatter yaml_Unmarshal ("---" ++ nl ++ "---" ++ after)
    = Panic "index out of range".
Proof.
  intros yaml after. unfold parseFrontmatter.
  change ("---" ++ nl ++ "---" ++ after)
    with ("---" ++ ((nl ++ "---") ++ after)).
  unfold HasPrefix. rewrite prefix_append. cbn [negb].
  rewrite slice_from_ok
    by (unfold len; rewrite length_append; simpl String.length; lia).
  rewrite go_bind_Done. change (Z.to_nat 3) with (String.length "---").
  rewrite drop_append.
  assert (I : Index ((nl ++ "---") ++ after) (nl ++ "---") = 0).
  { destruct ((nl ++ "---") ++ after) eqn:E; [discriminate|].
    rewrite Index_cons, <- E, prefix_append. reflexivity. }
  rewrite I. cbn [Z.eqb].
  rewrite slice_to_ok by (unfold len; lia).
  rewrite go_bind_Done. change (take (Z.to_nat 0) _) with "".
  rewrite at_empty. reflexivity.
Qed.

(** C6.  An input that begins with the opening delimiter and has no
    newline followed by the delimiter anywhere after it comes back whole,
    unclosed delimiter included, with empty metadata. *)
Theorem parseFrontmatter_unclosed :
  forall (yaml_Unmarshal : string -> Frontmatter -> Frontmatter * option error)
         (content : string),
    HasPrefix content "---" = true ->
    (forall pre post, drop 3 content <> pre ++ (nl ++ "---") ++ post) ->
    parseFrontmatter yaml_Unmarshal content
    = Done (mkFrontmatter "" "", content).
Proof.
  intros yaml content HP HN. unfold parseFrontmatter.
  rewrite HP. cbn [negb].
  pose proof (HasPrefix_length _ _ HP) as L3.
  change (len "---") with 3 in L3.
  rewrite slice_from_ok by lia. rewrite go_bind_Done.
  change (Z.to_nat 3) with 3%nat.
  rewrite (proj2 (Index_absent (drop 3 content) (nl ++ "---")) HN).
  reflexivity.
Qed.

Lemma parseFrontmatter_unclosed_witness :
  parseFrontmatter Demo.flat_yaml ("---" ++ nl ++ "title: Draft" ++ nl ++ "--")
  = Done (mkFrontmatter "" "", "---" ++ nl ++ "title: Draft" ++ nl ++ "--").
Proof.
  apply (parseFrontmatter_unclosed Demo.flat_yaml).
  - reflexivity.
  - apply Index_absent. reflexivity.
Defined.

(** C4 (as amended).  A header block that is closed, not empty, and on
    which the decoder reports an error never aborts the file:
    [parseFrontmatter] discards the error and returns the fields as the
    decoder left them, with the body.  The fields are both empty when
    the decoder failed before it set any. *)
Theorem parseFrontmatter_decode_failure :
  forall (yaml_Unmarshal : string -> Frontmatter -> Frontmatter * option error)
         (content : string) (n : Z) (fm : Frontmatter) (e : error),
    HasPrefix content "---" = true ->
    Index (drop 3 content) (nl ++ "---") = n ->
    0 < n ->
    yaml_Unmarshal (strip_newline (take (Z.to_nat n) (drop 3 content)))
                   zeroFrontmatter = (fm, Some e) ->
    parseFrontmatter yaml_Unmarshal content
    = Done (fm, strip_newline (drop (Z.to_nat n + 4) (drop 3 content)))
    /\ (fm = zeroFrontmatter ->
        exists body,
          parseFrontmatter yaml_Unmarshal content
          = Done (mkFrontmatter "" "", body)).
Proof.
  intros yaml content n fm e HP HI Hn HY.
  pose proof (parseFrontmatter_closed yaml content n HP HI Hn) as E.
  rewrite HY in E. simpl fst in E. split; [exact E|].
  intros ->. eexists. exact E.
Qed.

Lemma parseFrontmatter_decode_failure_witness :
  parseFrontmatter Demo.flat_yaml
    ("---" ++ nl ++ "title Hello" ++ nl ++ "---" ++ nl ++ "Body")
  = Done (mkFrontmatter "" "", "Body").
Proof.
  apply (parseFrontmatter_decode_failure Demo.flat_yaml
           ("---" ++ nl ++ "title Hello" ++ nl ++ "---" ++ nl ++ "Body")
           12 zeroFrontmatter
           (ErrMsg "yaml: could not find expected ':'")).
  - reflexivity.
  - reflexivity.
  - lia.
  - reflexivity.
Defined.

(** C4, the claim as stated fails.  With a title that is a sequence the
    decoder reports an error, and yet the date it decoded next to it is
    returned: the fields are not both empty. *)
Lemma parseFrontmatter_decode_failure_keeps_fields :
  let block := "title: [a, b]" ++ nl ++ "date: 2025-01-17" in
  let content := "---" ++ nl ++ block ++ nl ++ "---" ++ nl ++ "Body" in
  snd (Demo.flat_yaml block zeroFrontmatter) <> None
  /\ parseFrontmatter Demo.flat_yaml content
     = Done (mkFrontmatter "" "2025-01-17", "Body")
  /\ ~ (forall (yaml : string -> Frontmatter -> Frontmatter * option error)
               (c : string) (n : Z) fm e,
          HasPrefix c "---" = true ->
          Index (drop 3 c) (nl ++ "---") = n -> 0 < n ->
          yaml (strip_newline (take (Z.to_nat n) (drop 3 c)))
               zeroFrontmatter = (fm, Some e) ->
          exists body,
            parseFrontmatter yaml c = Done (mkFrontmatter "" "", body)).
Proof.
  cbv zeta. split; [vm_compute; discriminate|].
  split; [vm_compute; reflexivity|].
  intros H.
  destruct (H Demo.flat_yaml
              ("---" ++ nl ++ ("title: [a, b]" ++ nl ++ "date: 2025-01-17")
               ++ nl ++ "---" ++ nl ++ "Body")
              31 (mkFrontmatter "" "2025-01-17")
              (ErrMsg "yaml: unmarshal errors: cannot unmarshal !!seq into string"))
    as [body E]; try (vm_compute; reflexivity).
  vm_compute in E. discriminate E.
Qed.

(** ** URL deriver *)

Lemma HasSuffix_append (r suffix : string) : HasSuffix (r ++ suffix) suffix = true.
Proof.
  unfold HasSuffix. rewrite length_append.
  replace (String.length r + String.length suffix - String.length suffix)%nat
    with (String.length r) by lia.
  rewrite drop_append, String.eqb_refl, andb_true_r.
  apply Nat.leb_le. lia.
Qed.

Lemma TrimSuffix_append (r suffix : string) : TrimSuffix (r ++ suffix) suffix = r.
Proof.
  unfold TrimSuffix. rewrite HasSuffix_append, length_append.
  replace (String.length r + String.length suffix - String.length suffix)%nat
    with (String.length r) by lia.
  apply take_append.
Qed.

Lemma TrimPrefix_append (p r : string) : TrimPrefix (p ++ r) p = r.
Proof.
  unfold TrimPrefix, HasPrefix. rewrite prefix_append. apply drop_append.
Qed.

(** Whatever the path, the URL ends in [.html]. *)
Lemma pathToURL_ends_html (path : string) :
  HasSuffix (pathToURL path) ".html" = true.
Proof.
  unfold pathToURL. apply HasSuffix_append.
Qed.

(** For a path under the content root with the extension in lower case,
    the root is stripped and the extension replaced. *)
Lemma pathToURL_md (r : string) :
  pathToURL ("content" ++ r ++ ".md") = r ++ ".html".
Proof.
  unfold pathToURL. now rewrite TrimPrefix_append, TrimSuffix_append.
Qed.

(** Applied to a path under the content root whose root prefix is already
    stripped, [pathToURL] gives the same URL. *)
Lemma pathToURL_stripped (r : string) :
  pathToURL (TrimPrefix ("content/" ++ r) "content")
  = pathToURL ("content/" ++ r).
Proof.
  change ("content/" ++ r) with ("content" ++ String "/" r).
  rewrite TrimPrefix_append. unfold pathToURL at 2.
  rewrite TrimPrefix_append. reflexivity.
Qed.

(** C5 (code bug).  Discovery accepts the extension in any case, and
    [pathToURL] removes it in lower case only: for a discovered file
    [content/blog/Post.MD] the extension is not replaced, [.html] is
    added behind it. *)
Theorem pathToURL_uppercase_extension :
  isMarkdown "content/blog/Post.MD" = true
  /\ pathToURL "content/blog/Post.MD" = "/blog/Post.MD.html"
  /\ pathToURL "content/blog/Post.MD" <> "/blog/Post.html".
Proof.
  split; [vm_compute; reflexivity|].
  split; [vm_compute; reflexivity|].
  vm_compute. discriminate.
Qed.

(** ** Dates *)

Lemma Parse_error_zero (value : string) :
  snd (GoTime.Parse value) <> None -> fst (GoTime.Parse value) = zeroTime.
Proof.
  unfold GoTime.Parse. destruct (GoTime.parse_ymd value); simpl.
  - intros H. now elim H.
  - reflexivity.
Qed.

(** ** Content loader *)

Section LoaderFacts.

Variable yaml_Unmarshal : string -> Frontmatter -> Frontmatter * option error.
Variable filepath_Base : string -> string.
Variable strings_Title : string -> string.
Variable goldmark_Convert : string -> result string.
Variable World : Type.
Variable os_ReadFile : string -> World -> result string.

Local Abbreviation load :=
  (loadPage yaml_Unmarshal filepath_Base strings_Title goldmark_Convert
     World os_ReadFile).
Local Abbreviation gen_from :=
  (generateHtml_from yaml_Unmarshal filepath_Base strings_Title
     goldmark_Convert World os_ReadFile).
Local Abbreviation gen :=
  (generateHtml yaml_Unmarshal filepath_Base strings_Title
     goldmark_Convert World os_ReadFile).
Local Abbreviation page_of := (pageOf filepath_Base strings_Title).

Lemma loadPage_ok (w : World) (file content markdown buf : string)
    (fm : Frontmatter) :
  os_ReadFile file w = Ok content ->
  parseFrontmatter yaml_Unmarshal content = Done (fm, markdown) ->
  goldmark_Convert markdown = Ok buf ->
  load w file = Done (Ok (page_of file fm buf)).
Proof.
  intros HR HP HC. unfold loadPage.
  rewrite HR, HP, go_bind_Done, HC. reflexivity.
Qed.

Lemma generateHtml_from_ok (w : World) (files : list string) :
  forall (loaded pages : list Page),
    Forall2 (fun f p => load w f = Done (Ok p)) files loaded ->
    gen_from w files pages = Done (Ok (pages ++ loaded)%list).
Proof.
  induction files as [|f files IH]; intros loaded pages H;
    inversion H as [|? p ? rest Hf Hrest]; subst; simpl.
  - now rewrite app_nil_r.
  - rewrite Hf, go_bind_Done, (IH rest (pages ++ [p])%list Hrest).
    now rewrite <- app_assoc.
Qed.

Lemma pageOf_bad_date (file : string) (fm : Frontmatter) (buf : string) :
  fmDate fm = "" \/ snd (GoTime.Parse (fmDate fm)) <> None ->
  Date (page_of file fm buf) = zeroTime.
Proof.
  intros [E|E]; simpl.
  - now rewrite E.
  - destruct (String.eqb (fmDate fm) ""); simpl; [reflexivity|].
    now apply Parse_error_zero.
Qed.

(** Files that are all read, parsed and converted load into one page
    each, in order. *)
Lemma generateHtml_ok (w : World) (files : list string) :
  (forall f, In f files ->
     exists content fm markdown buf,
       os_ReadFile f w = Ok content
       /\ parseFrontmatter yaml_Unmarshal content = Done (fm, markdown)
       /\ goldmark_Convert markdown = Ok buf) ->
  exists pages,
    gen w files = Done (Ok pages)
    /\ Forall2 (fun f p =>
                  exists content fm markdown buf,
                    os_ReadFile f w = Ok content
                    /\ parseFrontmatter yaml_Unmarshal content
                       = Done (fm, markdown)
                    /\ goldmark_Convert markdown = Ok buf
                    /\ p = page_of f fm buf) files pages.
Proof.
  intros H.
  assert (E : exists pages,
             Forall2 (fun f p => load w f = Done (Ok p)) files pages
             /\ Forall2 (fun f p =>
                           exists content fm markdown buf,
                             os_ReadFile f w = Ok content
                             /\ parseFrontmatter yaml_Unmarshal content
                                = Done (fm, markdown)
                             /\ goldmark_Convert markdown = Ok buf
                             /\ p = page_of f fm buf) files pages).
  { induction files as [|f files IH].
    - exists []. split; constructor.
    - destruct (H f (or_introl eq_refl)) as (c & fm & md & buf & HR & HP & HC).
      destruct IH as (pages & L & Q).
      { intros g Hg. apply H. now right. }
      exists (page_of f fm buf :: pages). split; constructor; trivial.
      + now apply (loadPage_ok w f c md buf fm).
      + now exists c, fm, md, buf. }
  destruct E as (pages & L & Q). exists pages. split; [|exact Q].
  unfold generateHtml.
  now rewrite (generateHtml_from_ok w files pages [] L).
Qed.

(** C8.  When every file is read, parsed and converted, the loader
    returns a page for each file and no error, and every page whose
    metadata date is absent or does not parse as a date has the zero
    date: a bad date never makes loading fail. *)
Theorem generateHtml_bad_date :
  forall (w : World) (files : list string),
    (forall f, In f files ->
       exists content fm markdown buf,
         os_ReadFile f w = Ok content
         /\ parseFrontmatter yaml_Unmarshal content = Done (fm, markdown)
         /\ goldmark_Convert markdown = Ok buf) ->
    exists pages,
      gen w files = Done (Ok pages)
      /\ map Path pages = files
      /\ (forall p content fm markdown,
            In p pages ->
            os_ReadFile (Path p) w = Ok content ->
            parseFrontmatter yaml_Unmarshal content = Done (fm, markdown) ->
            fmDate fm = "" \/ snd (GoTime.Parse (fmDate fm)) <> None ->
            Date p = zeroTime).
Proof.
  intros w files H.
  destruct (generateHtml_ok w files H) as (pages & G & Q).
  exists pages. split; [exact G|]. clear G H. split.
  - induction Q as [|f p files pages (c & fm & md & buf & _ & _ & _ & ->) _ IH];
      simpl; [reflexivity | now rewrite IH].
  - intros p content fm markdown Hin HR HP HD.
    induction Q as [|f q files pages (c & fm' & md & buf & HR' & HP' & _ & ->) _ IH].
    + destruct Hin.
    + destruct Hin as [<-|Hin]; [|now apply IH].
      simpl Path in HR. rewrite HR' in HR. injection HR as <-.
      rewrite HP' in HP. injection HP as <- _.
      now apply pageOf_bad_date.
Qed.

(** C7.  The file of the metadata round trip: the header parser returns
    the two fields and the body ["Body text"], with the newline after the
    opening delimiter and the one after the closing delimiter removed,
    and the loader makes of it a page titled ["Hello World"] and dated
    2025-01-17, given that the decoder reads the two keys of the block. *)
Theorem hello_world_round_trip :
  forall (w : World) (file buf : string),
    let block := "title: Hello World" ++ nl ++ "date: 2025-01-17" in
    let content := "---" ++ nl ++ block ++ nl ++ "---" ++ nl ++ "Body text" in
    fst (yaml_Unmarshal block zeroFrontmatter)
    = mkFrontmatter "Hello World" "2025-01-17" ->
    os_ReadFile file w = Ok content ->
    goldmark_Convert "Body text" = Ok buf ->
    parseFrontmatter yaml_Unmarshal content
    = Done (mkFrontmatter "Hello World" "2025-01-17", "Body text")
    /\ gen w [file]
       = Done (Ok [mkPage file (pathToURL file) "Hello World"
                     (mkTime 2025 1 17) buf]).
Proof.
  intros w file buf block content HY HR HC.
  assert (P : parseFrontmatter yaml_Unmarshal content
              = Done (mkFrontmatter "Hello World" "2025-01-17", "Body text")).
  { rewrite (parseFrontmatter_closed yaml_Unmarshal content 36);
      [ | vm_compute; reflexivity | vm_compute; reflexivity | lia ].
    change (strip_newline (take (Z.to_nat 36) (drop 3 content))) with block.
    rewrite HY. reflexivity. }
  split; [exact P|].
  unfold generateHtml. cbn [generateHtml_from].
  rewrite (loadPage_ok w file content "Body text" buf _ HR P HC).
  reflexivity.
Qed.

End LoaderFacts.

Lemma generateHtml_bad_date_witness :
  exists pages,
    generateHtml Demo.flat_yaml Demo.id_string Demo.id_string
      Demo.goldmark_Convert Demo.World Demo.os_ReadFile
      [("content/blog/draft.md",
        "---" ++ nl ++ "date: next week" ++ nl ++ "---" ++ nl ++ "Soon")]
      ["content/blog/draft.md"]
    = Done (Ok pages)
    /\ map Path pages = ["content/blog/draft.md"]
    /\ (forall p content fm markdown,
          In p pages ->
          Demo.os_ReadFile (Path p)
            [("content/blog/draft.md",
              "---" ++ nl ++ "date: next week" ++ nl ++ "---" ++ nl ++ "Soon")]
          = Ok content ->
          parseFrontmatter Demo.flat_yaml content = Done (fm, markdown) ->
          fmDate fm = "" \/ snd (GoTime.Parse (fmDate fm)) <> None ->
          Date p = zeroTime).
Proof.
  apply (generateHtml_bad_date Demo.flat_yaml Demo.id_string Demo.id_string
           Demo.goldmark_Convert Demo.World Demo.os_ReadFile).
  intros f [<-|[]].
  exists ("---" ++ nl ++ "date: next week" ++ nl ++ "---" ++ nl ++ "Soon"),
         (mkFrontmatter "" "next week"), "Soon", "<p>Soon</p>".
  repeat split; vm_compute; reflexivity.
Defined.

Lemma hello_world_round_trip_witness :
  parseFrontmatter Demo.flat_yaml Demo.hello_md
  = Done (mkFrontmatter "Hello World" "2025-01-17", "Body text")
  /\ generateHtml Demo.flat_yaml Demo.id_string Demo.id_string
       Demo.goldmark_Convert Demo.World Demo.os_ReadFile Demo.disk
       ["content/blog/hello.md"]
     = Done (Ok [mkPage "content/blog/hello.md"
                   (pathToURL "content/blog/hello.md") "Hello World"
                   (mkTime 2025 1 17) "<p>Body text</p>"]).
Proof.
  apply (hello_world_round_trip Demo.flat_yaml Demo.id_string Demo.id_string
           Demo.goldmark_Convert Demo.World Demo.os_ReadFile Demo.disk
           "content/blog/hello.md" "<p>Body text</p>");
    vm_compute; reflexivity.
Defined.

(** ** Site assembler: classification *)

Lemma last_index_None {A} (f : A -> bool) (l : list A) :
  last_index f l = None <-> forall x, In x l -> f x = false.
Proof.
  induction l as [|x l IH]; simpl.
  - split; [intros _ y [] | reflexivity].
  - destruct (last_index f l) as [k|] eqn:E.
    + split; [discriminate|]. intros H.
      assert (Q : Some k = None); [|discriminate Q].
      apply IH. intros y Hy. apply H. now right.
    + destruct (f x) eqn:F.
      * split; [discriminate|]. intros H.
        rewrite (H x (or_introl eq_refl)) in F. discriminate.
      * split; [|reflexivity]. intros _ y [<-|Hy]; [exact F|].
        now apply (proj1 IH eq_refl).
Qed.

Lemma last_index_Some {A} (f : A -> bool) (l : list A) (i : nat) :
  last_index f l = Some i <->
  exists x, nth_error l i = Some x /\ f x = true
            /\ forall j y, (i < j)%nat -> nth_error l j = Some y -> f y = false.
Proof.
  revert i; induction l as [|x l IH]; intros i; simpl.
  - split; [discriminate|]. intros (y & H & _). now destruct i.
  - destruct (last_index f l) as [k|] eqn:E.
    + split.
      * intros [= <-]. destruct (proj1 (IH k) eq_refl) as (y & N & F & L).
        exists y. repeat split; trivial.
        intros [|j] z Hj Hz; [lia|]. apply (L j z); [lia | exact Hz].
      * intros (y & N & F & L). destruct i as [|i].
        -- destruct (proj1 (IH k) eq_refl) as (z & Nz & Fz & _).
           rewrite (L (Datatypes.S k) z) in Fz; [discriminate | lia | exact Nz].
        -- f_equal.
           assert (Q : Some k = Some i); [|now injection Q as ->].
           apply IH. exists y. repeat split; trivial.
           intros j z Hj Hz. apply (L (Datatypes.S j) z); [lia | exact Hz].
    + pose proof (proj1 (last_index_None f l) E) as NL.
      split.
      * destruct (f x) eqn:F; [|discriminate]. intros [= <-].
        exists x. repeat split; trivial.
        intros [|j] z Hj Hz; [lia|]. apply NL.
        now apply nth_error_In with j.
      * intros (y & N & F & L). destruct i as [|i].
        -- injection N as ->. now rewrite F.
        -- simpl in N. apply nth_error_In in N.
           rewrite (NL y N) in F. discriminate.
Qed.

Lemma classify_from_eq (pages : list Page) :
  forall (i : nat) (homePage : option nat) (blogPosts : list Page),
    classify_from i pages homePage blogPosts
    = (match last_index isIndex pages with
       | Some j => Some (i + j)%nat
       | None => homePage
       end,
       (blogPosts ++ filter isBlogPost pages)%list).
Proof.
  induction pages as [|p pages IH]; intros i homePage blogPosts; simpl.
  - now rewrite app_nil_r.
  - unfold isBlogPost at 1. fold (isIndex p).
    destruct (isIndex p) eqn:X; simpl.
    + rewrite IH. destruct (last_index isIndex pages) as [j|].
      * f_equal. f_equal. lia.
      * f_equal. f_equal. lia.
    + destruct (Contains (Path p) "/blog/") eqn:B; rewrite IH.
      * rewrite <- app_assoc. simpl.
        destruct (last_index isIndex pages) as [j|]; [|reflexivity].
        f_equal. f_equal. lia.
      * destruct (last_index isIndex pages) as [j|]; [|reflexivity].
        f_equal. f_equal. lia.
Qed.

Lemma classify_eq (pages : list Page) :
  classify pages = (last_index isIndex pages, filter isBlogPost pages).
Proof.
  unfold classify. rewrite classify_from_eq. simpl.
  now destruct (last_index isIndex pages).
Qed.

Lemma nth_error_update_at {A} (f : A -> A) (l : list A) (i : nat) :
  nth_error (update_at i f l) i = option_map f (nth_error l i).
Proof.
  revert i; induction l as [|x l IH]; intros [|i]; simpl; trivial.
Qed.

(** C3 (as amended).  The home page is the last page, in the order of
    loading, whose path ends in [index.md], wherever the file lies in the
    tree; there is none when no path ends so.  Its URL is overwritten with
    [/index.html] whatever URL was derived for it, its other fields stay;
    and no page whose path ends in [index.md] is among the blog posts. *)
Theorem classify_home_page :
  forall pages : list Page,
    (forall i,
       fst (classify pages) = Some i <->
       exists p, nth_error pages i = Some p
                 /\ HasSuffix (Path p) "index.md" = true
                 /\ forall j q, (i < j)%nat -> nth_error pages j = Some q ->
                                HasSuffix (Path q) "index.md" = false)
    /\ (fst (classify pages) = None <->
        forall p, In p pages -> HasSuffix (Path p) "index.md" = false)
    /\ (forall i,
          fst (classify pages) = Some i ->
          exists p, nth_error pages i = Some p
                    /\ homeOf pages i
                       = Some (mkPage (Path p) "/index.html" (Title p)
                                 (Date p) (Content p)))
    /\ snd (classify pages)
       = filter (fun p => negb (HasSuffix (Path p) "index.md")
                          && Contains (Path p) "/blog/") pages.
Proof.
  intros pages. rewrite classify_eq. simpl fst. simpl snd.
  split; [|split; [|split]].
  - intros i. apply (last_index_Some isIndex pages i).
  - apply (last_index_None isIndex pages).
  - intros i H. apply last_index_Some in H. destruct H as (p & N & _).
    exists p. split; [exact N|].
    unfold homeOf. rewrite nth_error_update_at, N. reflexivity.
  - reflexivity.
Qed.

(** C3, the claim as stated fails.  A page under the blog directory
    whose file is named [index.md] is classified as the home page, and
    with a second index file deeper in the tree it is that one, not the
    one at the content root, that becomes the home page. *)
Lemma classify_home_page_not_root_only :
  let page path := mkPage path (pathToURL path) "" zeroTime "" in
  classify [page "content/blog/index.md"] = (Some 0%nat, [])
  /\ fst (classify [page "content/index.md"; page "content/notes/index.md"])
     = Some 1%nat
  /\ homeOf [page "content/index.md"; page "content/notes/index.md"] 1
     = Some (mkPage "content/notes/index.md" "/index.html" "" zeroTime "").
Proof.
  cbv zeta. repeat split; vm_compute; reflexivity.
Qed.

(** ** Site assembler: ordering of the blog posts *)

Lemma After_spec (t u : Time) :
  GoTime.After t u = true <->
  (year u < year t
   \/ (year t = year u
       /\ (month u < month t
           \/ (month t = month u /\ day u < day t)))).
Proof.
  unfold GoTime.After, GoTime.compare.
  destruct (Z.compare_spec (year t) (year u));
    destruct (Z.compare_spec (month t) (month u));
    destruct (Z.compare_spec (day t) (day u));
    split; intros; try discriminate; try reflexivity; lia.
Qed.

Lemma After_false (t u : Time) :
  GoTime.After t u = false <->
  ~ (year u < year t
     \/ (year t = year u
         /\ (month u < month t
             \/ (month t = month u /\ day u < day t)))).
Proof.
  rewrite <- After_spec. now destruct (GoTime.After t u).
Qed.

(** The comparison of [build] is a strict weak ordering, as [sort.Slice]
    requires. *)
Lemma newerFirst_StrictWeak : StrictWeak newerFirst.
Proof.
  unfold newerFirst. repeat split.
  - intros a. apply After_false. lia.
  - intros a b c H1 H2. apply After_spec in H1, H2. apply After_spec. lia.
  - intros a b c H1 H2. apply After_false in H1, H2. apply After_false. lia.
Qed.

Section InsertionSortFacts.

Context {A : Type}.
Variable less : A -> A -> bool.

Lemma sift_perm (x : A) (l : list A) : Permutation (x :: l) (sift less x l).
Proof.
  induction l as [|y l IH]; simpl.
  - apply Permutation_refl.
  - destruct (less x y).
    + apply perm_trans with (y :: x :: l); [apply perm_swap|].
      now apply perm_skip.
    + apply Permutation_refl.
Qed.

Lemma insertionSort_from_perm (todo : list A) :
  forall sorted_rev,
    Permutation (rev sorted_rev ++ todo)%list (insertionSort_from less sorted_rev todo).
Proof.
  induction todo as [|x todo IH]; intros sorted_rev; simpl.
  - rewrite app_nil_r. apply Permutation_refl.
  - apply perm_trans with (rev (sift less x sorted_rev) ++ todo)%list; [|apply IH].
    apply perm_trans with ((x :: rev sorted_rev) ++ todo)%list.
    + apply Permutation_sym, Permutation_middle.
    + apply Permutation_app_tail.
      apply perm_trans with (x :: sorted_rev).
      * apply perm_skip, Permutation_sym, Permutation_rev.
      * apply perm_trans with (sift less x sorted_rev);
          [apply sift_perm | apply Permutation_rev].
Qed.

Lemma insertionSort_perm (data : list A) :
  Permutation data (insertionSort less data).
Proof.
  apply (insertionSort_from_perm data []).
Qed.

Hypothesis less_StrictWeak : StrictWeak less.

Lemma less_asym (a b : A) : less a b = true -> less b a = false.
Proof.
  destruct less_StrictWeak as (I & T & _). intros H.
  destruct (less b a) eqn:E; [|reflexivity].
  rewrite <- (I a). symmetry. now apply (T a b a).
Qed.

(** The sorted prefix, read right to left, never has an element before
    one it is less than. *)
Lemma sift_sorted (x : A) (l : list A) :
  StronglySorted (fun a b => less a b = false) l ->
  StronglySorted (fun a b => less a b = false) (sift less x l).
Proof.
  destruct less_StrictWeak as (I & T & N).
  induction l as [|y l IH]; intros S; simpl.
  - constructor; constructor.
  - apply StronglySorted_inv in S. destruct S as (S & F).
    destruct (less x y) eqn:E.
    + constructor; [now apply IH|].
      apply (Permutation_Forall (sift_perm x l)).
      constructor; [now apply less_asym | exact F].
    + constructor; [now constructor|].
      constructor; [exact E|].
      apply Forall_forall. intros z Hz.
      apply (N x y z E). now apply (proj1 (Forall_forall _ _) F).
Qed.

Lemma StronglySorted_rev (R : A -> A -> Prop) (l : list A) :
  StronglySorted R l -> StronglySorted (fun a b => R b a) (rev l).
Proof.
  induction l as [|x l IH]; intros S; simpl; [constructor|].
  apply StronglySorted_inv in S. destruct S as (S & F).
  specialize (IH S). apply Forall_rev in F.
  revert IH F. generalize (rev l). intros r.
  induction r as [|y r IHr]; intros Sr Fr; simpl.
  - constructor; constructor.
  - apply StronglySorted_inv in Sr. destruct Sr as (Sr & Fy).
    apply Forall_cons_iff in Fr. destruct Fr as (Ry & Fr).
    constructor; [now apply IHr|].
    apply Forall_app. split; [exact Fy | now constructor].
Qed.

Lemma insertionSort_from_sorted (todo : list A) :
  forall sorted_rev,
    StronglySorted (fun a b => less a b = false) sorted_rev ->
    StronglySorted (fun a b => less b a = false)
      (insertionSort_from less sorted_rev todo).
Proof.
  induction todo as [|x todo IH]; intros sorted_rev S; simpl.
  - now apply (StronglySorted_rev (fun a b => less a b = false)).
  - apply IH. now apply sift_sorted.
Qed.

Lemma insertionSort_sorted (data : list A) :
  StronglySorted (fun a b => less b a = false) (insertionSort less data).
Proof.
  apply insertionSort_from_sorted. constructor.
Qed.

End InsertionSortFacts.

(** Both sorts used below keep [sort.Slice]'s contract. *)
Lemma Demo_sort_Slice_contract : SliceContract Demo.sort_Slice.
Proof.
  intros A x less. split.
  - apply insertionSort_perm.
  - intros W. now apply insertionSort_sorted.
Qed.

Lemma Demo_sort_Slice_reversing_contract :
  SliceContract Demo.sort_Slice_reversing.
Proof.
  intros A x less. unfold Demo.sort_Slice_reversing. split.
  - apply perm_trans with (rev x);
      [apply Permutation_rev | apply insertionSort_perm].
  - intros W. now apply insertionSort_sorted.
Qed.

(** A list sorted by a relation that is antisymmetric on its elements is
    the only sorted arrangement of those elements. *)
Lemma sorted_arrangement_unique {A} (R : A -> A -> Prop) (l1 : list A) :
  forall l2,
    StronglySorted R l1 -> StronglySorted R l2 -> Permutation l1 l2 ->
    (forall x y, In x l1 -> In y l1 -> R x y -> R y x -> x = y) ->
    l1 = l2.
Proof.
  induction l1 as [|x l1 IH]; intros l2 S1 S2 P Anti.
  - apply Permutation_nil in P. now subst.
  - destruct l2 as [|y l2].
    { apply Permutation_sym, Permutation_nil in P. discriminate. }
    apply StronglySorted_inv in S1, S2.
    destruct S1 as (S1 & F1), S2 as (S2 & F2).
    assert (E : x = y).
    { assert (Hy : In y (x :: l1)).
      { apply (Permutation_in y (Permutation_sym P)). now left. }
      assert (Hx : In x (y :: l2)).
      { apply (Permutation_in x P). now left. }
      destruct Hy as [Hy|Hy]; [exact Hy|].
      destruct Hx as [Hx|Hx]; [now symmetry|].
      apply Anti; [now left | now right | |].
      - now apply (proj1 (Forall_forall _ _) F1).
      - now apply (proj1 (Forall_forall _ _) F2). }
    subst y. f_equal. apply IH; trivial.
    + now apply Permutation_cons_inv with x.
    + intros a b Ha Hb. apply Anti; now right.
Qed.

Lemma StronglySorted_suffix {A} (R : A -> A -> Prop) (l1 l2 : list A) :
  StronglySorted R (l1 ++ l2)%list -> StronglySorted R l2.
Proof.
  induction l1 as [|x l1 IH]; simpl; intros S; [exact S|].
  apply StronglySorted_inv in S. now apply IH.
Qed.

(** What the contract alone fixes: posts with pairwise different dates
    have one sorted arrangement. *)
Lemma sorted_posts_unique
    (sort : forall A : Type, list A -> (A -> A -> bool) -> list A)
    (posts expected : list Page) :
  SliceContract sort ->
  Permutation expected posts ->
  StronglySorted (fun p q => GoTime.After (Date q) (Date p) = false) expected ->
  (forall p q, In p expected -> In q expected ->
               GoTime.After (Date q) (Date p) = false ->
               GoTime.After (Date p) (Date q) = false -> p = q) ->
  sort Page posts newerFirst = expected.
Proof.
  intros C P S Anti. destruct (C Page posts newerFirst) as (CP & CS).
  symmetry.
  apply (sorted_arrangement_unique
           (fun p q => GoTime.After (Date q) (Date p) = false)); trivial.
  - apply (CS newerFirst_StrictWeak).
  - now apply perm_trans with posts.
Qed.

(** C2 (as amended).  Whatever [sort.Slice] does within its contract,
    the blog posts come out as a rearrangement of the input in which no
    post is followed by one with a later date.  An absent date is the
    zero instant, January 1 of year 1: no post that follows an undated
    one is dated later than that.  Nothing is promised about the order
    of posts with equal dates.  The posts dated 2024-01-01, absent and
    2025-06-01 come out as 2025-06-01, 2024-01-01, absent. *)
Theorem blogPosts_sorted_by_date :
  forall (sort_Slice : forall A : Type, list A -> (A -> A -> bool) -> list A),
    SliceContract sort_Slice ->
    forall posts : list Page,
      let sorted := sort_Slice Page posts newerFirst in
      Permutation posts sorted
      /\ StronglySorted
           (fun p q => GoTime.After (Date q) (Date p) = false) sorted
      /\ (forall before p after q,
            sorted = (before ++ p :: after)%list ->
            Date p = zeroTime -> In q after ->
            GoTime.After (Date q) zeroTime = false)
      /\ (forall a b c,
            posts = [a; b; c] ->
            Date a = mkTime 2024 1 1 -> Date b = zeroTime ->
            Date c = mkTime 2025 6 1 ->
            sorted = [c; a; b]).
Proof.
  intros sort C posts sorted.
  destruct (C Page posts newerFirst) as (CP & CS).
  specialize (CS newerFirst_StrictWeak). fold sorted in CP, CS.
  split; [exact CP|]. split; [exact CS|]. split.
  - intros before p after q E Z Hq. rewrite E in CS.
    apply StronglySorted_suffix, StronglySorted_inv in CS.
    destruct CS as (_ & F). rewrite <- Z.
    now apply (proj1 (Forall_forall _ _) F).
  - intros a b c -> Da Db Dc. unfold sorted.
    apply sorted_posts_unique; trivial.
    + apply perm_trans with [a; c; b].
      * apply perm_swap.
      * apply perm_skip, perm_swap.
    + repeat constructor; rewrite ?Da, ?Db, ?Dc; reflexivity.
    + intros p q Hp Hq.
      simpl in Hp, Hq.
      destruct Hp as [<-|[<-|[<-|[]]]]; destruct Hq as [<-|[<-|[<-|[]]]];
        rewrite ?Da, ?Db, ?Dc; trivial; vm_compute; discriminate.
Qed.

Lemma blogPosts_sorted_by_date_witness :
  let post path date := mkPage path (pathToURL path) "" date "" in
  let posts := [post "content/blog/a.md" (mkTime 2024 1 1);
                post "content/blog/b.md" zeroTime;
                post "content/blog/c.md" (mkTime 2025 6 1)] in
  let sorted := Demo.sort_Slice Page posts newerFirst in
  Permutation posts sorted
  /\ StronglySorted
       (fun p q => GoTime.After (Date q) (Date p) = false) sorted
  /\ (forall before p after q,
        sorted = (before ++ p :: after)%list ->
        Date p = zeroTime -> In q after ->
        GoTime.After (Date q) zeroTime = false)
  /\ (forall a b c,
        posts = [a; b; c] ->
        Date a = mkTime 2024 1 1 -> Date b = zeroTime ->
        Date c = mkTime 2025 6 1 ->
        sorted = [c; a; b]).
Proof.
  exact (blogPosts_sorted_by_date Demo.sort_Slice Demo_sort_Slice_contract
           [mkPage "content/blog/a.md" (pathToURL "content/blog/a.md") ""
              (mkTime 2024 1 1) "";
            mkPage "content/blog/b.md" (pathToURL "content/blog/b.md") ""
              zeroTime "";
            mkPage "content/blog/c.md" (pathToURL "content/blog/c.md") ""
              (mkTime 2025 6 1) ""]).
Defined.

(** C2, the claim as stated fails.  First, a sort within [sort.Slice]'s
    contract may reverse posts of equal date.  Second, the date
    [0000-06-01] parses, to a day before the zero instant, so under every
    sort within the contract an undated post stays in front of the post
    that carries it. *)
Lemma blogPosts_order_not_as_claimed :
  let post path date := mkPage path (pathToURL path) "" date "" in
  let a := post "content/blog/a.md" (mkTime 2025 1 17) in
  let b := post "content/blog/b.md" (mkTime 2025 1 17) in
  let undated := post "content/blog/undated.md" zeroTime in
  let ancient :=
    post "content/blog/ancient.md" (fst (GoTime.Parse "0000-06-01")) in
  (SliceContract Demo.sort_Slice_reversing
   /\ Demo.sort_Slice_reversing Page [a; b] newerFirst = [b; a])
  /\ (GoTime.Parse "0000-06-01" = (mkTime 0 6 1, None)
      /\ Demo.sort_Slice Page [undated; ancient] newerFirst
         = [undated; ancient]
      /\ forall sort : forall A : Type, list A -> (A -> A -> bool) -> list A,
           SliceContract sort ->
           sort Page [undated; ancient] newerFirst = [undated; ancient]).
Proof.
  cbv zeta. split; [split|split; [|split]].
  - apply Demo_sort_Slice_reversing_contract.
  - vm_compute. reflexivity.
  - vm_compute. reflexivity.
  - vm_compute. reflexivity.
  - intros sort C. apply sorted_posts_unique; trivial.
    + repeat constructor.
    + intros p q [<-|[<-|[]]] [<-|[<-|[]]]; trivial;
        vm_compute; discriminate.
Qed.

(** ** File discovery *)

Lemma DirEntry_nested_ind (P : DirEntry -> Prop) :
  (forall name, P (File name)) ->
  (forall name entries readErr,
     Forall P entries -> P (Dir name entries readErr)) ->
  forall d, P d.
Proof.
  intros HF HD. fix IH 1. intros [name|name entries readErr].
  - apply HF.
  - apply HD. induction entries as [|d1 entries IHe]; constructor.
    + apply IH.
    + exact IHe.
Qed.

(** The callback on an entry without error, and on an error. *)
Lemma walkFn_entry (path : string) (d : DirEntry)
    (files out : list string) :
  walkFn path (Some d) None (files, out)
  = Done ((if IsDir d then files
           else (files ++ filter isMarkdown [path])%list, out), None).
Proof.
  unfold walkFn. destruct (IsDir d); [reflexivity|].
  simpl filter. unfold isMarkdown.
  destruct (HasSuffix (ToLower path) ".md"); [reflexivity|].
  now rewrite app_nil_r.
Qed.

Lemma walkFn_error (path : string) (d : option DirEntry) (e : error)
    (files out : list string) :
  walkFn path d (Some e) (files, out)
  = Done ((files, (out ++ [warning (path, e)])%list), None).
Proof. reflexivity. Qed.

Lemma rangeDirs_walkFn (path : string) (entries : list DirEntry) :
  Forall (fun d =>
            forall path files out,
              walkDir walkFn path d (files, out)
              = Done ((files ++ filter isMarkdown (walk_files path d),
                       out ++ map warning (walk_errors path d))%list,
                      None)) entries ->
  forall files out,
    rangeDirs (walkDir walkFn) path entries (files, out)
    = Done ((files
             ++ filter isMarkdown
                  (flat_map (fun d1 => walk_files (Join path (Name d1)) d1)
                     entries),
             out
             ++ map warning
                  (flat_map (fun d1 => walk_errors (Join path (Name d1)) d1)
                     entries))%list,
            None).
Proof.
  induction 1 as [|d1 entries H1 _ IH]; intros files out; simpl.
  - now rewrite !app_nil_r.
  - rewrite H1, go_bind_Done, IH, filter_app, map_app, !app_assoc.
    reflexivity.
Qed.

(** The walk under an entry never stops and never fails: it appends the
    Markdown files it meets and a warning for each directory it could not
    read. *)
Lemma walkDir_walkFn (d : DirEntry) :
  forall path files out,
    walkDir walkFn path d (files, out)
    = Done ((files ++ filter isMarkdown (walk_files path d),
             out ++ map warning (walk_errors path d))%list,
            None).
Proof.
  induction d as [name|name entries readErr IH] using DirEntry_nested_ind;
    intros path files out.
  - cbn [walkDir]. rewrite walkFn_entry, go_bind_Done. cbn [IsDir].
    simpl walk_errors. simpl map. now rewrite app_nil_r.
  - cbn [walkDir]. rewrite walkFn_entry, go_bind_Done. cbn [IsDir].
    destruct readErr as [e|].
    + rewrite walkFn_error, go_bind_Done.
      rewrite (rangeDirs_walkFn path entries IH).
      cbn [walk_files walk_errors]. rewrite map_app, <- app_assoc.
      reflexivity.
    + rewrite go_bind_Done.
      rewrite (rangeDirs_walkFn path entries IH).
      reflexivity.
Qed.

(** C9.  Discovery never fails: whatever could not be accessed, the root
    itself or directories below it, [findMarkdownFiles] returns a nil
    error, prints one warning for each of them, and returns every
    Markdown file among the entries it was given, in the order of the
    walk. *)
Theorem findMarkdownFiles_skips_unreadable :
  forall (lstat : result DirEntry) (root : string) (out : list string),
    findMarkdownFiles lstat root out
    = Done ((discovered lstat root, None),
            (out ++ map warning (unreadable lstat root))%list).
Proof.
  intros [d|e] root out; unfold findMarkdownFiles, WalkDir.
  - rewrite walkDir_walkFn. reflexivity.
  - rewrite walkFn_error. reflexivity.
Qed.

(** An instance: a tree with an unreadable directory between two
    Markdown files, one with its extension in upper case. *)
Example findMarkdownFiles_example :
  findMarkdownFiles
    (Ok (Dir "content"
           [Dir "blog" [File "hello.md"; File "notes.txt"] None;
            Dir "drafts" [] (Some (ErrMsg "permission denied"));
            File "index.MD"] None))
    "content" []
  = Done ((["content/blog/hello.md"; "content/index.MD"], None),
          ["Warning: could not access content/drafts - permission denied"]).
Proof. vm_compute. reflexivity. Qed.

(** ** Build orchestrator *)

Section BuildFacts.

Variable yaml_Unmarshal : string -> Frontmatter -> Frontmatter * option error.
Variable filepath_Base : string -> string.
Variable strings_Title : string -> string.
Variable goldmark_Convert : string -> result string.
Variable World : Type.
Variable os_ReadFile : string -> World -> result string.
Variable os_Stat_IsNotExist : string -> World -> bool.
Variable os_Lstat : string -> World -> result DirEntry.
Variable os_MkdirAll : string -> World -> World * option error.
Variable os_Create : string -> World -> World * option error.
Variable os_WriteFile : string -> string -> World -> World * option error.
Variable filepath_Dir : string -> string.
Variable Template : Type.
Variable template_ParseFiles : string -> World -> result Template.
Variable tmpl_Execute : Template -> string -> tmplData -> World
                        -> World * option error.
Variable sort_Slice : forall A : Type, list A -> (A -> A -> bool) -> list A.

Local Abbreviation load :=
  (build_load yaml_Unmarshal filepath_Base strings_Title goldmark_Convert
     World os_ReadFile os_Stat_IsNotExist os_Lstat Template
     template_ParseFiles).
Local Abbreviation render :=
  (build_render World os_MkdirAll os_Create filepath_Dir Template
     tmpl_Execute sort_Slice).
Local Abbreviation copy := (copy_static World os_ReadFile os_WriteFile).
Local Abbreviation run :=
  (build yaml_Unmarshal filepath_Base strings_Title goldmark_Convert World
     os_ReadFile os_Stat_IsNotExist os_Lstat os_MkdirAll os_Create
     os_WriteFile filepath_Dir Template template_ParseFiles tmpl_Execute
     sort_Slice).
Local Abbreviation render_page :=
  (renderPage World os_MkdirAll os_Create filepath_Dir Template tmpl_Execute).
Local Abbreviation render_home :=
  (renderHome World os_MkdirAll os_Create filepath_Dir Template tmpl_Execute).

Lemma bind_Next {A B} (m : M World A) (k : A -> M World B)
    (st st' : State World) (a : A) :
  m st = (Next a, st') -> bind m k st = k a st'.
Proof. intros H. unfold bind. now rewrite H. Qed.

Lemma bind_Returned {A B} (m : M World A) (k : A -> M World B)
    (st st' : State World) :
  m st = (Returned, st') -> bind m k st = (Returned, st').
Proof. intros H. unfold bind. now rewrite H. Qed.

(** The copy block: once the stylesheet is read, the result of the write
    plays no part; the line is printed and execution goes on. *)
Lemma copy_static_ignores_write (st : State World) (content : string)
    (w' : World) (werr : option error) :
  os_ReadFile "static/styles.css" (world st) = Ok content ->
  os_WriteFile "public/styles.css" content (world st) = (w', werr) ->
  copy st = (Next tt, mkState w' (stdout st ++ ["Copied: public/styles.css"])).
Proof.
  intros HR HW. unfold copy_static, bind, reads, writes, Println.
  rewrite HR, HW. reflexivity.
Qed.

(** A failed render of the home page ends [build_render] with a
    [return], after the message. *)
Lemma renderHome_fatal (homeTmpl : Template) (pages : list Page) (i : nat)
    (home : Page) (e : error) (st st' : State World) :
  homeOf pages i = Some home ->
  render_page homeTmpl home "public/index.html" st = (Next (Some e), st') ->
  render_home homeTmpl pages (Some i) st
  = (Returned,
     mkState (world st')
       (stdout st' ++ [line ["Error rendering home page:"; Error e]])).
Proof.
  intros HH HR. unfold renderHome. rewrite HH.
  rewrite (bind_Next _ _ _ _ _ HR). reflexivity.
Qed.

(** C10.  When the build has rendered everything and the source
    stylesheet is read, the build prints the [Copied:] line and runs to
    its end whatever the write of [public/styles.css] returns, an error
    included: the result of [os.WriteFile] is dropped.  A failed render
    of the home page, by contrast, ends the build at once with its error
    message and nothing is copied. *)
Theorem build_ignores_stylesheet_write_error :
  forall (st st1 st2 : State World)
         (loaded : list Page * (Template * Template * Template))
         (content : string) (w' : World) (werr : option error),
    load st = (Next loaded, st1) ->
    render (fst loaded) (snd loaded) st1 = (Next tt, st2) ->
    os_ReadFile "static/styles.css" (world st2) = Ok content ->
    os_WriteFile "public/styles.css" content (world st2) = (w', werr) ->
    run st
    = (Next tt, mkState w' (stdout st2 ++ ["Copied: public/styles.css"]))
    /\ (forall (pages : list Page) (homeTmpl postTmpl blogIndexTmpl : Template)
               (s s1 s2 : State World) (i : nat) (home : Page) (e : error),
          load s = (Next (pages, (homeTmpl, postTmpl, blogIndexTmpl)), s1) ->
          fst (classify pages) = Some i ->
          homeOf pages i = Some home ->
          render_page homeTmpl home "public/index.html" s1
          = (Next (Some e), s2) ->
          run s
          = (Returned,
             mkState (world s2)
               (stdout s2
                ++ [line ["Error rendering home page:"; Error e]]))).
Proof.
  intros st st1 st2 loaded content w' werr HL HRn HR HW. split.
  - unfold build.
    rewrite (bind_Next _ _ _ _ _ HL), (bind_Next _ _ _ _ _ HRn).
    exact (copy_static_ignores_write st2 content w' werr HR HW).
  - clear. intros pages homeTmpl postTmpl blogIndexTmpl s s1 s2 i home e
      HL HC HH HP.
    unfold build. rewrite (bind_Next _ _ _ _ _ HL). simpl fst. simpl snd.
    apply bind_Returned. unfold build_render.
    destruct (classify pages) as [homePage blogPosts]. simpl in HC. subst.
    apply bind_Returned.
    exact (renderHome_fatal homeTmpl pages i home e s1 s2 HH HP).
Qed.

End BuildFacts.

Lemma build_ignores_stylesheet_write_error_witness :
  snd (Demo.os_WriteFile "public/styles.css" "body {}" Demo.disk)
  = Some (ErrMsg "open public/styles.css: permission denied")
  /\ fst (Demo.build (mkState Demo.disk [])) = Next tt
  /\ stdout (snd (Demo.build (mkState Demo.disk [])))
     = ["Found markdown files:"; " - content/blog/hello.md";
        " - content/index.md"; "Generated: public/index.html";
        "Generated: public/blog/hello.html";
        "Generated: public/blog/index.html"; "Copied: public/styles.css"].
Proof.
  split; [vm_compute; reflexivity|].
  edestruct (build_ignores_stylesheet_write_error Demo.flat_yaml
               Demo.id_string Demo.id_string Demo.goldmark_Convert
               Demo.World Demo.os_ReadFile Demo.os_Stat_IsNotExist
               Demo.os_Lstat Demo.os_MkdirAll Demo.os_Create
               Demo.os_WriteFile Demo.id_string string Demo.os_ReadFile
               Demo.tmpl_Execute Demo.sort_Slice (mkState Demo.disk []))
    as [E _].
  - lazy. reflexivity.
  - lazy. reflexivity.
  - lazy. reflexivity.
  - lazy. reflexivity.
  - unfold Demo.build. rewrite E. split; vm_compute; reflexivity.
Defined.

(** * Further properties of the pipeline *)

(** ** Metadata header parser: panics, body, composition *)

Lemma prefix_cons (c d : ascii) (p s : string) :
  String.prefix (String c p) (String d s)
  = if Ascii.eqb c d then String.prefix p s else false.
Proof.
  simpl. destruct (ascii_dec c d) as [->|ne].
  - now rewrite Ascii.eqb_refl.
  - apply Ascii.eqb_neq in ne. now rewrite ne.
Qed.

Lemma prefix_empty (s : string) : String.prefix "" s = true.
Proof. now destruct s. Qed.

Lemma Index_zero (s sep : string) :
  Index s sep = 0 <-> String.prefix sep s = true.
Proof.
  pose proof (Index_lower_bound s sep) as L. revert L.
  destruct s as [|c s]; [rewrite Index_nil | rewrite Index_cons].
  - destruct (String.prefix sep ""); split; trivial; lia.
  - destruct (String.prefix sep (String c s)); [split; trivial|].
    pose proof (Index_lower_bound s sep) as L'.
    destruct (Index s sep =? -1) eqn:E; [split; [lia | discriminate]|].
    apply Z.eqb_neq in E. split; [lia | discriminate].
Qed.

Lemma take_drop (n : nat) (s : string) : take n s ++ drop n s = s.
Proof.
  revert s; induction n as [|n IH]; intros [|c s]; simpl;
    try reflexivity.
  now rewrite IH.
Qed.

Lemma drop_drop (n m : nat) (s : string) :
  drop n (drop m s) = drop (m + n) s.
Proof.
  revert s; induction m as [|m IH]; intros s; simpl.
  - reflexivity.
  - destruct s as [|c s]; [now destruct n | apply IH].
Qed.

Lemma drop_next (k : nat) (s t : string) (c : ascii) :
  drop k s = String c t -> drop (Datatypes.S k) s = t.
Proof.
  revert s; induction k as [|k IH]; intros s E.
  - simpl in E. now subst s.
  - destruct s as [|x s]; [discriminate|]. simpl in E. apply (IH s E).
Qed.

Lemma drop_append_plus (a s : string) (k : nat) :
  drop (String.length a + k) (a ++ s) = drop k s.
Proof.
  induction a as [|c a IH]; simpl; [reflexivity | exact IH].
Qed.

(** With the closing delimiter at offset 0 the block is empty and the
    parser panics. *)
Lemma parseFrontmatter_at_zero
    (yaml_Unmarshal : string -> Frontmatter -> Frontmatter * option error)
    (content : string) :
  HasPrefix content "---" = true ->
  Index (drop 3 content) (nl ++ "---") = 0 ->
  parseFrontmatter yaml_Unmarshal content = Panic "index out of range".
Proof.
  intros HP HI. unfold parseFrontmatter. rewrite HP. cbn [negb].
  pose proof (HasPrefix_length _ _ HP) as L3.
  change (len "---") with 3 in L3.
  rewrite slice_from_ok by lia. rewrite go_bind_Done.
  change (Z.to_nat 3) with 3%nat. rewrite HI. cbn [Z.eqb].
  rewrite slice_to_ok by (unfold len; lia).
  rewrite go_bind_Done. change (take (Z.to_nat 0) _) with "".
  rewrite at_empty. reflexivity.
Qed.

(** The three ways the parser ends, by where the closing delimiter is. *)
Lemma parseFrontmatter_cases
    (yaml_Unmarshal : string -> Frontmatter -> Frontmatter * option error)
    (content : string) :
  (HasPrefix content ("---" ++ nl ++ "---") = false
   /\ exists fm k,
        parseFrontmatter yaml_Unmarshal content = Done (fm, drop k content))
  \/ (HasPrefix content ("---" ++ nl ++ "---") = true
      /\ parseFrontmatter yaml_Unmarshal content = Panic "index out of range").
Proof.
  assert (Split : HasPrefix content ("---" ++ nl ++ "---")
                  = HasPrefix content "---"
                    && String.prefix (nl ++ "---") (drop 3 content)).
  { unfold HasPrefix.
    destruct content as [|a [|b [|c rest]]]; try reflexivity;
      cbn [append]; rewrite ?prefix_cons;
      try (destruct (Ascii.eqb "-" a); reflexivity);
      try (destruct (Ascii.eqb "-" a), (Ascii.eqb "-" b); reflexivity).
    destruct (Ascii.eqb "-" a), (Ascii.eqb "-" b), (Ascii.eqb "-" c);
      cbn [andb drop]; rewrite ?prefix_empty; reflexivity. }
  rewrite Split.
  destruct (HasPrefix content "---") eqn:HP; cbn [andb].
  - pose proof (Index_lower_bound (drop 3 content) (nl ++ "---")) as L.
    destruct (String.prefix (nl ++ "---") (drop 3 content)) eqn:P.
    + right. split; [reflexivity|].
      apply parseFrontmatter_at_zero; trivial. now apply Index_zero.
    + left. split; [reflexivity|].
      destruct (Z.eq_dec (Index (drop 3 content) (nl ++ "---")) (-1)) as [E|E].
      * exists zeroFrontmatter, 0%nat.
        unfold parseFrontmatter. rewrite HP. cbn [negb].
        pose proof (HasPrefix_length _ _ HP) as L3.
        change (len "---") with 3 in L3.
        rewrite slice_from_ok by lia. rewrite go_bind_Done.
        change (Z.to_nat 3) with 3%nat. rewrite E. reflexivity.
      * assert (Pos : 0 < Index (drop 3 content) (nl ++ "---")).
        { destruct (Z.eq_dec (Index (drop 3 content) (nl ++ "---")) 0) as [Z0|];
            [|lia].
          apply Index_zero in Z0. rewrite Z0 in P. discriminate. }
        rewrite (parseFrontmatter_closed yaml_Unmarshal content _ HP eq_refl Pos).
        set (n := Z.to_nat (Index (drop 3 content) (nl ++ "---"))).
        rewrite drop_drop.
        destruct (drop (3 + (n + 4)) content) as [|c0 md'] eqn:Em.
        -- eexists. exists (3 + (n + 4))%nat. now rewrite Em.
        -- simpl strip_newline. destruct (Ascii.eqb c0 newline).
           ++ eexists. exists (Datatypes.S (3 + (n + 4))).
              now rewrite (drop_next _ _ _ _ Em).
           ++ eexists. exists (3 + (n + 4))%nat. now rewrite Em.
  - left. split; [reflexivity|]. exists zeroFrontmatter, 0%nat.
    unfold parseFrontmatter. now rewrite HP.
Qed.

(** X1.  [parseFrontmatter] panics on exactly the inputs that begin with
    the opening delimiter, a newline and the delimiter again; on every
    other input it returns. *)
Theorem parseFrontmatter_panics_iff :
  forall (yaml_Unmarshal : string -> Frontmatter -> Frontmatter * option error)
         (content : string),
    (exists msg, parseFrontmatter yaml_Unmarshal content = Panic msg)
    <-> HasPrefix content ("---" ++ nl ++ "---") = true.
Proof.
  intros yaml content.
  destruct (parseFrontmatter_cases yaml content)
    as [(HP & fm & k & E)|(HP & E)]; rewrite E, HP.
  - split; [intros (msg & Q); discriminate | discriminate].
  - split; [reflexivity | intros _; now eexists].
Qed.

(** X2.  The body the parser returns is a tail of its input: the parser
    drops bytes from the front and nothing else, whatever the decoder
    does. *)
Theorem parseFrontmatter_body_is_tail :
  forall (yaml_Unmarshal : string -> Frontmatter -> Frontmatter * option error)
         (content body : string) (fm : Frontmatter),
    parseFrontmatter yaml_Unmarshal content = Done (fm, body) ->
    exists dropped, content = dropped ++ body.
Proof.
  intros yaml content body fm H.
  destruct (parseFrontmatter_cases yaml content)
    as [(_ & fm' & k & E)|(_ & E)]; rewrite E in H; [|discriminate].
  injection H as _ <-. exists (take k content). symmetry. apply take_drop.
Qed.

Lemma parseFrontmatter_body_is_tail_witness :
  exists dropped,
    Demo.hello_md = dropped ++ "Body text".
Proof.
  apply (parseFrontmatter_body_is_tail Demo.flat_yaml Demo.hello_md
           "Body text" (mkFrontmatter "Hello World" "2025-01-17")).
  vm_compute. reflexivity.
Defined.

(** The closing delimiter placed behind a text without one is found at
    the end of that text: a match that starts earlier would have to read
    the newline of the delimiter as a dash. *)
Lemma Index_delimiter_after (a t : string) :
  Index a (nl ++ "---") = -1 ->
  Index (a ++ (nl ++ "---") ++ t) (nl ++ "---") = len a.
Proof.
  induction a as [|x a IH]; intros H.
  - change ("" ++ (nl ++ "---") ++ t) with ((nl ++ "---") ++ t).
    apply Index_zero. apply prefix_append.
  - rewrite Index_cons in H.
    destruct (String.prefix (nl ++ "---") (String x a)) eqn:P; [discriminate|].
    pose proof (Index_lower_bound a (nl ++ "---")) as L.
    destruct (Index a (nl ++ "---") =? -1) eqn:E; [|lia].
    apply Z.eqb_eq in E. specialize (IH E).
    change (String x a ++ (nl ++ "---") ++ t)
      with (String x (a ++ (nl ++ "---") ++ t)).
    rewrite Index_cons, IH.
    assert (Q : String.prefix (nl ++ "---") (String x (a ++ (nl ++ "---") ++ t))
                = false).
    { revert P. change (nl ++ "---") with (String newline "---").
      destruct a as [|y [|z [|w a']]]; cbn [append];
        rewrite ?prefix_cons, ?prefix_empty;
        destruct (Ascii.eqb newline x); trivial;
        try (destruct (Ascii.eqb "-" y); trivial);
        try (destruct (Ascii.eqb "-" z); trivial). }
    rewrite Q.
    replace (len a =? -1) with false
      by (symmetry; apply Z.eqb_neq; unfold len; lia).
    unfold len. simpl String.length. lia.
Qed.

(** X3.  A file put together from a header block and a body is taken
    apart into the same two: when no line of the block starts with the
    delimiter, the decoder is handed exactly the block and the body comes
    back exactly, also when it begins with newlines of its own. *)
Theorem parseFrontmatter_compose :
  forall (yaml_Unmarshal : string -> Frontmatter -> Frontmatter * option error)
         (block body : string),
    Index (nl ++ block) (nl ++ "---") = -1 ->
    parseFrontmatter yaml_Unmarshal
      ("---" ++ nl ++ block ++ nl ++ "---" ++ nl ++ body)
    = Done (fst (yaml_Unmarshal block zeroFrontmatter), body).
Proof.
  intros yaml block body H.
  set (content := "---" ++ nl ++ block ++ nl ++ "---" ++ nl ++ body).
  assert (R : drop 3 content = (nl ++ block) ++ (nl ++ "---") ++ (nl ++ body))
    by reflexivity.
  assert (I : Index (drop 3 content) (nl ++ "---") = len (nl ++ block)).
  { rewrite R. now apply Index_delimiter_after. }
  rewrite (parseFrontmatter_closed yaml content (len (nl ++ block)));
    [ | reflexivity | exact I | unfold len; simpl String.length; lia ].
  rewrite R. unfold len. rewrite Nat2Z.id.
  rewrite take_append.
  change 4%nat with (String.length (nl ++ "---") + 0)%nat.
  rewrite drop_append_plus, drop_append_plus.
  reflexivity.
Qed.

Lemma parseFrontmatter_compose_witness :
  parseFrontmatter Demo.flat_yaml
    ("---" ++ nl ++ ("title: Notes" ++ nl ++ "date: 2024-02-29") ++ nl
     ++ "---" ++ nl ++ (nl ++ "# Heading" ++ nl ++ "--- a rule"))
  = Done (fst (Demo.flat_yaml ("title: Notes" ++ nl ++ "date: 2024-02-29")
                 zeroFrontmatter),
          nl ++ "# Heading" ++ nl ++ "--- a rule").
Proof.
  apply (parseFrontmatter_compose Demo.flat_yaml
           ("title: Notes" ++ nl ++ "date: 2024-02-29")
           (nl ++ "# Heading" ++ nl ++ "--- a rule")).
  vm_compute. reflexivity.
Defined.

(** ** Dates of the layout ["2006-01-02"] *)

Lemma append_empty_r (s : string) : s ++ "" = s.
Proof.
  induction s as [|c s IH]; simpl; [reflexivity | now rewrite IH].
Qed.

Lemma isDigit_head_eq (c : ascii) (s : string) :
  GoTime.isDigit (String c s) 0
  = ((48 <=? nat_of_ascii c) && (nat_of_ascii c <=? 57))%nat.
Proof. reflexivity. Qed.

Lemma isDigit_head (c : ascii) (s : string) :
  GoTime.isDigit (String c s) 0 = true -> 0 <= GoTime.digitVal c <= 9.
Proof.
  rewrite isDigit_head_eq. unfold GoTime.digitVal.
  intros H. apply andb_true_iff in H. destruct H as (H1 & H2).
  apply Nat.leb_le in H1, H2. lia.
Qed.

Lemma atoi_from_bounds (s : string) :
  forall acc v,
    GoTime.atoi_from s acc = Some v ->
    acc * 10 ^ len s <= v <= acc * 10 ^ len s + 10 ^ len s - 1.
Proof.
  induction s as [|c s IH]; intros acc v H; simpl in H.
  - injection H as <-. unfold len. simpl. lia.
  - destruct (GoTime.isDigit (String c s) 0) eqn:D; [|discriminate].
    apply isDigit_head in D. apply IH in H.
    assert (P : 0 < 10 ^ len s) by (apply Z.pow_pos_nonneg; unfold len; lia).
    replace (len (String c s)) with (len s + 1)
      by (unfold len; simpl String.length; lia).
    rewrite Z.pow_add_r by (unfold len; lia).
    change (10 ^ 1) with 10. nia.
Qed.

Lemma getnum_fixed_inv (s rest : string) (n : Z) :
  GoTime.getnum_fixed s = Some (n, rest) ->
  exists c0 c1, s = String c0 (String c1 rest) /\ 0 <= n <= 99.
Proof.
  unfold GoTime.getnum_fixed.
  destruct (GoTime.isDigit s 0) eqn:D0; [|discriminate].
  destruct (GoTime.isDigit s 1) eqn:D1; [|discriminate]. cbn [negb].
  destruct s as [|c0 [|c1 r]]; try discriminate.
  intros [= <- <-]. exists c0, c1. split; [reflexivity|].
  apply isDigit_head in D0.
  change (GoTime.isDigit (String c0 (String c1 r)) 1)
    with (GoTime.isDigit (String c1 r) 0) in D1.
  apply isDigit_head in D1. lia.
Qed.

Lemma skip_dash_inv (s rest : string) :
  GoTime.skip_dash s = Some rest -> s = String "-" rest.
Proof.
  destruct s as [|c s]; [discriminate|]. simpl.
  destruct (Ascii.eqb c "-") eqn:E; [|discriminate].
  apply Ascii.eqb_eq in E. now intros [= <-]; subst.
Qed.

(** What [time.Parse] accepts is a calendar day written in ten bytes. *)
Lemma parse_ymd_sound (value : string) (t : Time) :
  GoTime.parse_ymd value = Some t ->
  validDay t /\ String.length value = 10%nat.
Proof.
  unfold GoTime.parse_ymd.
  destruct ((String.length value <? 4)%nat) eqn:L4; [discriminate|].
  apply Nat.ltb_ge in L4.
  destruct (GoTime.isDigit value 0); [|discriminate]. cbn [negb orb].
  destruct (GoTime.atoi (take 4 value)) as [y|] eqn:A; [|discriminate].
  destruct (GoTime.skip_dash (drop 4 value)) as [v1|] eqn:S1; [|discriminate].
  destruct (GoTime.getnum_fixed v1) as [[m v2]|] eqn:G1; [|discriminate].
  destruct ((m <=? 0) || (12 <? m)) eqn:RM; [discriminate|].
  destruct (GoTime.skip_dash v2) as [v3|] eqn:S2; [|discriminate].
  destruct (GoTime.getnum_fixed v3) as [[d v4]|] eqn:G2; [|discriminate].
  destruct (String.eqb v4 "") eqn:E4; [|discriminate]. cbn [negb].
  destruct ((d <? 1) || (GoTime.daysIn m y <? d)) eqn:RD; [discriminate|].
  intros [= <-].
  apply orb_false_iff in RM, RD. destruct RM as (M1 & M2), RD as (D1 & D2).
  apply Z.leb_gt in M1. apply Z.ltb_ge in M2, D1, D2.
  apply String.eqb_eq in E4. subst v4.
  apply skip_dash_inv in S1, S2.
  apply getnum_fixed_inv in G1, G2.
  destruct G1 as (a & b & -> & _), G2 as (c & e & -> & _). subst v2.
  unfold GoTime.atoi in A. apply atoi_from_bounds in A.
  assert (L : len (take 4 value) = 4)
    by (unfold len; rewrite length_take; lia).
  rewrite L in A. change (10 ^ 4) with 10000 in A.
  split.
  - unfold validDay. simpl. lia.
  - rewrite <- (take_drop 4 value), length_append, length_take, S1 by lia.
    reflexivity.
Qed.

Lemma digitChar_isDigit (d : Z) (s : string) :
  0 <= d <= 9 -> GoTime.isDigit (String (digitChar d) s) 0 = true.
Proof.
  intros H. rewrite isDigit_head_eq. unfold digitChar.
  rewrite nat_ascii_embedding by lia.
  apply andb_true_iff. split; apply Nat.leb_le; lia.
Qed.

Lemma digitChar_digitVal (d : Z) :
  0 <= d <= 9 -> GoTime.digitVal (digitChar d) = d.
Proof.
  intros H. unfold GoTime.digitVal, digitChar.
  rewrite nat_ascii_embedding by lia. lia.
Qed.

Lemma getnum_fixed_two_digits (n : Z) (rest : string) :
  0 <= n <= 99 ->
  GoTime.getnum_fixed (two_digits n ++ rest) = Some (n, rest).
Proof.
  intros H.
  assert (H1 : 0 <= n / 10 <= 9).
  { split; [apply Z.div_pos; lia|].
    assert (n / 10 < 10) by (apply Z.div_lt_upper_bound; lia). lia. }
  assert (H0 : 0 <= n mod 10 <= 9) by (pose proof (Z.mod_pos_bound n 10); lia).
  unfold GoTime.getnum_fixed, two_digits. cbn [append].
  rewrite (digitChar_isDigit _ _ H1). cbn [negb].
  change (GoTime.isDigit (String ?a (String ?b ?r)) 1)
    with (GoTime.isDigit (String b r) 0).
  rewrite (digitChar_isDigit _ _ H0). cbn [negb].
  rewrite !digitChar_digitVal by assumption.
  do 2 f_equal. pose proof (Z.div_mod n 10). lia.
Qed.

(** Every calendar day, written in the layout, is parsed to itself. *)
Lemma parse_ymd_complete (t : Time) :
  validDay t -> GoTime.parse_ymd (format_date t) = Some t.
Proof.
  destruct t as [y m d]. unfold validDay. simpl. intros (Hy & Hm & Hd).
  assert (D31 : GoTime.daysIn m y <= 31).
  { unfold GoTime.daysIn.
    repeat match goal with |- context [if ?b then _ else _] => destruct b end;
      lia. }
  assert (Y3 : 0 <= y / 1000 <= 9).
  { split; [apply Z.div_pos; lia|].
    assert (y / 1000 < 10) by (apply Z.div_lt_upper_bound; lia). lia. }
  assert (Y2 : 0 <= y / 100 mod 10 <= 9)
    by (pose proof (Z.mod_pos_bound (y / 100) 10); lia).
  assert (Y1 : 0 <= y / 10 mod 10 <= 9)
    by (pose proof (Z.mod_pos_bound (y / 10) 10); lia).
  assert (Y0 : 0 <= y mod 10 <= 9) by (pose proof (Z.mod_pos_bound y 10); lia).
  unfold GoTime.parse_ymd, format_date, four_digits. cbn [year month day].
  cbn [append String.length Nat.ltb Nat.leb orb].
  rewrite (digitChar_isDigit _ _ Y3). cbn [negb take drop].
  unfold GoTime.atoi. cbn [GoTime.atoi_from].
  rewrite (digitChar_isDigit _ _ Y3), (digitChar_isDigit _ _ Y2),
    (digitChar_isDigit _ _ Y1), (digitChar_isDigit _ _ Y0).
  rewrite !digitChar_digitVal by assumption.
  cbn [GoTime.skip_dash]. rewrite Ascii.eqb_refl.
  rewrite getnum_fixed_two_digits by lia.
  replace ((m <=? 0) || (12 <? m)) with false
    by (symmetry; apply orb_false_iff; split;
        [apply Z.leb_gt | apply Z.ltb_ge]; lia).
  cbn [GoTime.skip_dash]. rewrite Ascii.eqb_refl.
  rewrite <- (append_empty_r (two_digits d)) at 1.
  rewrite getnum_fixed_two_digits by lia.
  cbn [String.eqb negb].
  assert (E : (((0 * 10 + y / 1000) * 10 + (y / 100) mod 10) * 10
               + (y / 10) mod 10) * 10 + y mod 10 = y).
  { pose proof (Z.div_mod y 10 ltac:(lia)) as E0.
    pose proof (Z.div_mod (y / 10) 10 ltac:(lia)) as E1.
    pose proof (Z.div_mod (y / 100) 10 ltac:(lia)) as E2.
    assert (Q2 : y / 100 = y / 10 / 10)
      by (change 100 with (10 * 10); symmetry; apply Z.div_div; lia).
    assert (Q3 : y / 1000 = y / 100 / 10)
      by (change 1000 with (100 * 10); symmetry; apply Z.div_div; lia).
    rewrite <- Q2 in E1. rewrite <- Q3 in E2. lia. }
  rewrite E.
  replace ((d <? 1) || (GoTime.daysIn m y <? d)) with false
    by (symmetry; apply orb_false_iff; split; apply Z.ltb_ge; lia).
  reflexivity.
Qed.

(** ** Content loader: what the pages are, and how loading fails *)

Section LoaderPages.

Variable yaml_Unmarshal : string -> Frontmatter -> Frontmatter * option error.
Variable filepath_Base : string -> string.
Variable strings_Title : string -> string.
Variable goldmark_Convert : string -> result string.
Variable World : Type.
Variable os_ReadFile : string -> World -> result string.

Local Abbreviation load :=
  (loadPage yaml_Unmarshal filepath_Base strings_Title goldmark_Convert
     World os_ReadFile).
Local Abbreviation gen_from :=
  (generateHtml_from yaml_Unmarshal filepath_Base strings_Title
     goldmark_Convert World os_ReadFile).
Local Abbreviation gen :=
  (generateHtml yaml_Unmarshal filepath_Base strings_Title
     goldmark_Convert World os_ReadFile).
Local Abbreviation page_of := (pageOf filepath_Base strings_Title).
Local Abbreviation title_of := (extractTitle filepath_Base strings_Title).

Lemma loadPage_inv (w : World) (file : string) (p : Page) :
  load w file = Done (Ok p) ->
  exists content fm markdown buf,
    os_ReadFile file w = Ok content
    /\ parseFrontmatter yaml_Unmarshal content = Done (fm, markdown)
    /\ goldmark_Convert markdown = Ok buf
    /\ p = page_of file fm buf.
Proof.
  unfold loadPage.
  destruct (os_ReadFile file w) as [content|e] eqn:HR; [|discriminate].
  destruct (parseFrontmatter yaml_Unmarshal content) as [[fm md]|msg] eqn:HP;
    [|discriminate].
  rewrite go_bind_Done.
  destruct (goldmark_Convert md) as [buf|e] eqn:HC; [|discriminate].
  intros [= <-]. now exists content, fm, md, buf.
Qed.

Lemma generateHtml_from_inv (w : World) (files : list string) :
  forall pages result,
    gen_from w files pages = Done (Ok result) ->
    exists loaded,
      result = (pages ++ loaded)%list
      /\ Forall2 (fun f p => load w f = Done (Ok p)) files loaded.
Proof.
  induction files as [|f files IH]; intros pages result H; simpl in H.
  - injection H as <-. exists []. split; [now rewrite app_nil_r | constructor].
  - destruct (load w f) as [[p|e]|msg] eqn:L; try discriminate.
    rewrite go_bind_Done in H. apply IH in H.
    destruct H as (loaded & -> & F). exists (p :: loaded). split.
    + now rewrite <- app_assoc.
    + now constructor.
Qed.

(** The loader stops at the first file that does not load: pages of the
    files before it are thrown away, files after it are not looked at. *)
Lemma generateHtml_from_stops (w : World) (files1 : list string) :
  forall loaded pages f files2 r,
    Forall2 (fun f p => load w f = Done (Ok p)) files1 loaded ->
    (forall p, load w f <> Done (Ok p)) ->
    go_bind (load w f)
      (fun x => match x with
                | Err e => Done (Err e)
                | Ok _ => Done (Ok [])
                end) = r ->
    gen_from w (files1 ++ f :: files2)%list pages = r.
Proof.
  induction files1 as [|g files1 IH]; intros loaded pages f files2 r F N R.
  - simpl. destruct (load w f) as [[p|e]|msg]; simpl in *; trivial.
    now elim (N p).
  - inversion F as [|? p ? rest Hg Hrest]; subst. simpl.
    rewrite Hg, go_bind_Done. now apply (IH rest).
Qed.

(** X4.  Whenever the loader returns pages, it returns one page for each
    file, in the order of the files: the page's path is the file, its URL
    is [pathToURL] of the file, its content is the conversion of the body
    the header parser returned, and its title is the metadata title, or
    the title derived from the file name when the metadata has none. *)
Theorem generateHtml_pages :
  forall (w : World) (files : list string) (pages : list Page),
    gen w files = Done (Ok pages) ->
    Forall2
      (fun f p =>
         Path p = f /\ URL p = pathToURL f
         /\ exists content fm markdown,
              os_ReadFile f w = Ok content
              /\ parseFrontmatter yaml_Unmarshal content = Done (fm, markdown)
              /\ goldmark_Convert markdown = Ok (Content p)
              /\ Title p = (if String.eqb (fmTitle fm) ""
                            then title_of f else fmTitle fm))
      files pages.
Proof.
  intros w files pages H. unfold generateHtml in H.
  apply generateHtml_from_inv in H. destruct H as (loaded & -> & F).
  simpl. induction F as [|f p files loaded L _ IH]; constructor; trivial.
  apply loadPage_inv in L. destruct L as (c & fm & md & buf & HR & HP & HC & ->).
  repeat split. now exists c, fm, md.
Qed.

(** X5.  Every page the loader returns carries a calendar day: a month
    from 1 to 12, a day that exists in that month of that year, and a
    year from 0 to 9999.  The zero date of an undated page is one. *)
Theorem generateHtml_dates_valid :
  forall (w : World) (files : list string) (pages : list Page),
    gen w files = Done (Ok pages) ->
    Forall (fun p => validDay (Date p)) pages.
Proof.
  intros w files pages H. unfold generateHtml in H.
  apply generateHtml_from_inv in H. destruct H as (loaded & -> & F).
  simpl. induction F as [|f p files loaded L _ IH]; constructor; trivial.
  apply loadPage_inv in L. destruct L as (c & fm & md & buf & _ & _ & _ & ->).
  simpl. assert (Z : validDay zeroTime)
    by (unfold validDay; vm_compute; repeat split; discriminate).
  destruct (negb (String.eqb (fmDate fm) "")); [|exact Z].
  unfold GoTime.Parse.
  destruct (GoTime.parse_ymd (fmDate fm)) as [t|] eqn:P; [|exact Z].
  simpl. now apply parse_ymd_sound in P.
Qed.

(** X6.  A metadata date that is a calendar day written as four digits
    of year, two of month and two of day with dashes between becomes the
    date of the page. *)
Theorem generateHtml_reads_date :
  forall (w : World) (file content markdown buf : string)
         (fm : Frontmatter) (t : Time),
    os_ReadFile file w = Ok content ->
    parseFrontmatter yaml_Unmarshal content = Done (fm, markdown) ->
    goldmark_Convert markdown = Ok buf ->
    validDay t ->
    fmDate fm = format_date t ->
    exists p, gen w [file] = Done (Ok [p]) /\ Date p = t.
Proof.
  intros w file content markdown buf fm t HR HP HC V E.
  exists (page_of file fm buf). split.
  - unfold generateHtml. cbn [generateHtml_from].
    now rewrite (loadPage_ok _ _ _ _ _ _ w file content markdown buf fm HR HP HC).
  - simpl. rewrite E.
    assert (N : String.eqb (format_date t) "" = false) by reflexivity.
    rewrite N. cbn [negb]. unfold GoTime.Parse.
    now rewrite (parse_ymd_complete t V).
Qed.

(** X7.  Loading is all or nothing: when the files before [f] load and
    [f] cannot be read, or its body cannot be converted, the loader
    returns that error and no page, whatever files follow. *)
Theorem generateHtml_first_error :
  forall (w : World) (files1 files2 : list string) (f : string) (e : error),
    (forall g, In g files1 ->
       exists content fm markdown buf,
         os_ReadFile g w = Ok content
         /\ parseFrontmatter yaml_Unmarshal content = Done (fm, markdown)
         /\ goldmark_Convert markdown = Ok buf) ->
    (os_ReadFile f w = Err e
     \/ exists content fm markdown,
          os_ReadFile f w = Ok content
          /\ parseFrontmatter yaml_Unmarshal content = Done (fm, markdown)
          /\ goldmark_Convert markdown = Err e) ->
    gen w (files1 ++ f :: files2)%list = Done (Err e).
Proof.
  intros w files1 files2 f e H1 Hf.
  assert (L : load w f = Done (Err e)).
  { unfold loadPage. destruct Hf as [HR|(c & fm & md & HR & HP & HC)].
    - now rewrite HR.
    - now rewrite HR, HP, go_bind_Done, HC. }
  assert (F : exists loaded,
             Forall2 (fun f p => load w f = Done (Ok p)) files1 loaded).
  { clear - H1. induction files1 as [|g files1 IH].
    - exists []. constructor.
    - destruct (H1 g (or_introl eq_refl)) as (c & fm & md & buf & HR & HP & HC).
      destruct IH as (loaded & F); [intros x Hx; apply H1; now right|].
      exists (page_of g fm buf :: loaded). constructor; trivial.
      now apply (loadPage_ok _ _ _ _ _ _ w g c md buf fm). }
  destruct F as (loaded & F). unfold generateHtml.
  apply (generateHtml_from_stops w files1 loaded [] f files2 _ F).
  - intros p Q. rewrite L in Q. discriminate.
  - now rewrite L.
Qed.

(** X8.  A file whose header block is empty takes the whole loader down:
    when the files before it load and its content begins with the
    delimiter, a newline and the delimiter, [generateHtml] panics. *)
Theorem generateHtml_panics_on_empty_block :
  forall (w : World) (files1 files2 : list string) (f content : string),
    (forall g, In g files1 ->
       exists content fm markdown buf,
         os_ReadFile g w = Ok content
         /\ parseFrontmatter yaml_Unmarshal content = Done (fm, markdown)
         /\ goldmark_Convert markdown = Ok buf) ->
    os_ReadFile f w = Ok content ->
    HasPrefix content ("---" ++ nl ++ "---") = true ->
    gen w (files1 ++ f :: files2)%list = Panic "index out of range".
Proof.
  intros w files1 files2 f content H1 HR HP.
  assert (L : load w f = Panic "index out of range").
  { unfold loadPage. rewrite HR.
    destruct (parseFrontmatter_cases yaml_Unmarshal content)
      as [(Q & _)|(_ & E)]; [rewrite HP in Q; discriminate|].
    now rewrite E. }
  assert (F : exists loaded,
             Forall2 (fun f p => load w f = Done (Ok p)) files1 loaded).
  { clear - H1. induction files1 as [|g files1 IH].
    - exists []. constructor.
    - destruct (H1 g (or_introl eq_refl)) as (c & fm & md & buf & HR & HP & HC).
      destruct IH as (loaded & F); [intros x Hx; apply H1; now right|].
      exists (page_of g fm buf :: loaded). constructor; trivial.
      now apply (loadPage_ok _ _ _ _ _ _ w g c md buf fm). }
  destruct F as (loaded & F). unfold generateHtml.
  apply (generateHtml_from_stops w files1 loaded [] f files2 _ F).
  - intros p Q. rewrite L in Q. discriminate.
  - now rewrite L.
Qed.

End LoaderPages.

Lemma generateHtml_pages_witness :
  Forall2
    (fun f p =>
       Path p = f /\ URL p = pathToURL f
       /\ exists content fm markdown,
            Demo.os_ReadFile f Demo.disk = Ok content
            /\ parseFrontmatter Demo.flat_yaml content = Done (fm, markdown)
            /\ Demo.goldmark_Convert markdown = Ok (Content p)
            /\ Title p = (if String.eqb (fmTitle fm) ""
                          then extractTitle Demo.id_string Demo.id_string f
                          else fmTitle fm))
    Demo.files Demo.pages.
Proof.
  apply (generateHtml_pages Demo.flat_yaml Demo.id_string Demo.id_string
           Demo.goldmark_Convert Demo.World Demo.os_ReadFile Demo.disk).
  vm_compute. reflexivity.
Defined.

Lemma generateHtml_dates_valid_witness :
  Forall (fun p => validDay (Date p)) Demo.pages.
Proof.
  apply (generateHtml_dates_valid Demo.flat_yaml Demo.id_string
           Demo.id_string Demo.goldmark_Convert Demo.World Demo.os_ReadFile
           Demo.disk Demo.files).
  vm_compute. reflexivity.
Defined.

Lemma generateHtml_reads_date_witness :
  exists p,
    Demo.generateHtml Demo.disk ["content/blog/hello.md"] = Done (Ok [p])
    /\ Date p = mkTime 2025 1 17.
Proof.
  apply (generateHtml_reads_date Demo.flat_yaml Demo.id_string
           Demo.id_string Demo.goldmark_Convert Demo.World Demo.os_ReadFile
           Demo.disk "content/blog/hello.md" Demo.hello_md "Body text"
           "<p>Body text</p>" (mkFrontmatter "Hello World" "2025-01-17")
           (mkTime 2025 1 17)).
  - vm_compute. reflexivity.
  - vm_compute. reflexivity.
  - vm_compute. reflexivity.
  - unfold validDay. vm_compute. repeat split; discriminate.
  - vm_compute. reflexivity.
Defined.

Lemma generateHtml_first_error_witness :
  Demo.generateHtml Demo.disk
    (["content/blog/hello.md"] ++ "content/blog/gone.md" :: ["content/index.md"])
  = Done (Err (ErrMsg "open content/blog/gone.md: no such file or directory")).
Proof.
  apply (generateHtml_first_error Demo.flat_yaml Demo.id_string
           Demo.id_string Demo.goldmark_Convert Demo.World Demo.os_ReadFile
           Demo.disk).
  - intros g [<-|[]].
    exists Demo.hello_md, (mkFrontmatter "Hello World" "2025-01-17"),
           "Body text", "<p>Body text</p>".
    repeat split; vm_compute; reflexivity.
  - left. vm_compute. reflexivity.
Defined.

Lemma generateHtml_panics_on_empty_block_witness :
  Demo.generateHtml
    (("content/blog/empty.md", "---" ++ nl ++ "---" ++ nl ++ "Body")
     :: Demo.disk)
    (["content/blog/hello.md"] ++ "content/blog/empty.md"
     :: ["content/index.md"])
  = Panic "index out of range".
Proof.
  apply (generateHtml_panics_on_empty_block Demo.flat_yaml Demo.id_string
           Demo.id_string Demo.goldmark_Convert Demo.World Demo.os_ReadFile
           (("content/blog/empty.md", "---" ++ nl ++ "---" ++ nl ++ "Body")
            :: Demo.disk)
           ["content/blog/hello.md"] ["content/index.md"]
           "content/blog/empty.md"
           ("---" ++ nl ++ "---" ++ nl ++ "Body")).
  - intros g [<-|[]].
    exists Demo.hello_md, (mkFrontmatter "Hello World" "2025-01-17"),
           "Body text", "<p>Body text</p>".
    repeat split; vm_compute; reflexivity.
  - vm_compute. reflexivity.
  - vm_compute. reflexivity.
Defined.

(** ** File discovery: what the returned paths look like *)

Lemma string_append_assoc (s t u : string) : (s ++ t) ++ u = s ++ t ++ u.
Proof.
  induction s as [|c s IH]; simpl; [reflexivity | now rewrite IH].
Qed.



(** ** URL deriver on lower-case Markdown paths *)

Lemma append_cancel_r (s t u : string) : s ++ u = t ++ u -> s = t.
Proof.
  revert t; induction s as [|c s IH]; intros [|d t] H; simpl in H.
  - reflexivity.
  - exfalso. apply (f_equal String.length) in H.
    simpl in H. rewrite length_append in H. lia.
  - exfalso. apply (f_equal String.length) in H.
    simpl in H. rewrite length_append in H. lia.
  - injection H as -> H. f_equal. now apply IH.
Qed.

(** X10.  For a path under the content root whose extension is [.md] in
    lower case, the URL is the path without the root with [.html] in
    place of the extension, and two such paths with the same URL are the
    same path: no two of these files are written to one output file. *)
Theorem pathToURL_md_injective :
  forall r1 r2 : string,
    pathToURL ("content" ++ r1 ++ ".md") = r1 ++ ".html"
    /\ (pathToURL ("content" ++ r1 ++ ".md")
        = pathToURL ("content" ++ r2 ++ ".md") ->
        "content" ++ r1 ++ ".md" = "content" ++ r2 ++ ".md").
Proof.
  intros r1 r2. split; [apply pathToURL_md|].
  rewrite !pathToURL_md. intros H. apply append_cancel_r in H. now subst.
Qed.

(** ** The comparison handed to [sort.Slice] *)

(** X11.  The comparison [build] gives to [sort.Slice] is fit for it: no
    post is newer than itself, newer-than is transitive, and so is
    not-newer-than; and two posts neither of which is newer than the
    other carry the same date. *)
Theorem newerFirst_is_strict_weak_order :
  (forall a, newerFirst a a = false)
  /\ (forall a b c,
        newerFirst a b = true -> newerFirst b c = true ->
        newerFirst a c = true)
  /\ (forall a b c,
        newerFirst a b = false -> newerFirst b c = false ->
        newerFirst a c = false)
  /\ (forall a b,
        newerFirst a b = false -> newerFirst b a = false ->
        Date a = Date b).
Proof.
  destruct newerFirst_StrictWeak as (I & T & N).
  repeat split; trivial.
  intros a b H1 H2. unfold newerFirst in *.
  apply After_false in H1, H2.
  destruct (Date a) as [y m d], (Date b) as [y' m' d']. simpl in *.
  f_equal; lia.
Qed.

(** ** Build orchestrator: what is written and printed, and when *)

Section BuildSteps.

Variable World : Type.

Lemma keeps_world_ret {A} (a : A) : keeps_world (@ret World A a).
Proof. intros st. reflexivity. Qed.

Lemma keeps_world_exit {A} : keeps_world (@exit World A).
Proof. intros st. reflexivity. Qed.

Lemma keeps_world_Println (operands : list string) :
  keeps_world (@Println World operands).
Proof. intros st. reflexivity. Qed.

Lemma keeps_world_reads {A} (f : World -> A) : keeps_world (reads World f).
Proof. intros st. reflexivity. Qed.

Lemma keeps_world_runs {A} (f : World -> go A) : keeps_world (runs World f).
Proof. intros st. unfold runs. now destruct (f (world st)). Qed.

Lemma keeps_world_bind {A B} (m : M World A) (k : A -> M World B) :
  keeps_world m -> (forall a, keeps_world (k a)) -> keeps_world (bind m k).
Proof.
  intros Hm Hk st. unfold bind. specialize (Hm st).
  destruct (m st) as [[a| |msg] st']; simpl in *; trivial.
  now rewrite Hk.
Qed.

Lemma keeps_world_check (err : option error) (msg : string) :
  keeps_world (@check World err msg).
Proof.
  destruct err as [e|]; [|apply keeps_world_ret].
  apply keeps_world_bind; [apply keeps_world_Println|].
  intros _. apply keeps_world_exit.
Qed.

Lemma keeps_world_checked {A} (r : result A) (msg : string) :
  keeps_world (checked World r msg).
Proof.
  destruct r as [a|e]; [apply keeps_world_ret|].
  apply keeps_world_bind; [apply keeps_world_Println|].
  intros _. apply keeps_world_exit.
Qed.

Lemma keeps_world_printFiles (files : list string) :
  keeps_world (printFiles World files).
Proof.
  induction files as [|f files IH]; [apply keeps_world_ret|].
  apply keeps_world_bind; [apply keeps_world_Println | intros _; exact IH].
Qed.

End BuildSteps.

Section BuildMore.

Variable yaml_Unmarshal : string -> Frontmatter -> Frontmatter * option error.
Variable filepath_Base : string -> string.
Variable strings_Title : string -> string.
Variable goldmark_Convert : string -> result string.
Variable World : Type.
Variable os_ReadFile : string -> World -> result string.
Variable os_Stat_IsNotExist : string -> World -> bool.
Variable os_Lstat : string -> World -> result DirEntry.
Variable os_MkdirAll : string -> World -> World * option error.
Variable os_Create : string -> World -> World * option error.
Variable os_WriteFile : string -> string -> World -> World * option error.
Variable filepath_Dir : string -> string.
Variable Template : Type.
Variable template_ParseFiles : string -> World -> result Template.
Variable tmpl_Execute : Template -> string -> tmplData -> World
                        -> World * option error.
Variable sort_Slice : forall A : Type, list A -> (A -> A -> bool) -> list A.

Local Abbreviation load :=
  (build_load yaml_Unmarshal filepath_Base strings_Title goldmark_Convert
     World os_ReadFile os_Stat_IsNotExist os_Lstat Template
     template_ParseFiles).
Local Abbreviation render :=
  (build_render World os_MkdirAll os_Create filepath_Dir Template
     tmpl_Execute sort_Slice).
Local Abbreviation copy := (copy_static World os_ReadFile os_WriteFile).
Local Abbreviation run :=
  (build yaml_Unmarshal filepath_Base strings_Title goldmark_Convert World
     os_ReadFile os_Stat_IsNotExist os_Lstat os_MkdirAll os_Create
     os_WriteFile filepath_Dir Template template_ParseFiles tmpl_Execute
     sort_Slice).
Local Abbreviation render_page :=
  (renderPage World os_MkdirAll os_Create filepath_Dir Template tmpl_Execute).
Local Abbreviation render_home :=
  (renderHome World os_MkdirAll os_Create filepath_Dir Template tmpl_Execute).
Local Abbreviation render_posts :=
  (renderPosts World os_MkdirAll os_Create filepath_Dir Template tmpl_Execute).
Local Abbreviation render_blog_index :=
  (renderBlogIndex World os_MkdirAll os_Create Template tmpl_Execute).

Lemma keeps_world_build_load : keeps_world load.
Proof.
  unfold build_load.
  repeat first
    [ apply keeps_world_bind; [|intros ?]
    | apply keeps_world_reads
    | apply keeps_world_runs
    | apply keeps_world_Println
    | apply keeps_world_exit
    | apply keeps_world_ret
    | apply keeps_world_check
    | apply keeps_world_checked
    | apply keeps_world_printFiles
    | match goal with
      | |- keeps_world (if ?b then _ else _) => destruct b
      | |- keeps_world (let '(_, _) := ?p in _) => destruct p
      end ].
  intros st.
  destruct (findMarkdownFiles (os_Lstat "content" (world st)) "content"
              (stdout st)) as [[r out]|msg]; reflexivity.
Qed.

(** X12.  Until rendering starts the build writes nothing: when it ends
    before that, for a missing directory, a failed discovery, a file
    that does not load or a template that does not parse, the file
    system is as it was found and nothing is rendered or copied. *)
Theorem build_aborts_before_rendering :
  forall st st' : State World,
    load st = (Returned, st') ->
    run st = (Returned, st') /\ world st' = world st.
Proof.
  intros st st' H. split.
  - unfold build. now apply bind_Returned.
  - pose proof (keeps_world_build_load st) as K. now rewrite H in K.
Qed.

(** X13.  When the content directory, or else the templates directory,
    does not exist, the build prints the message that names it and
    returns, having read and written nothing. *)
Theorem build_missing_directory :
  forall st : State World,
    os_Stat_IsNotExist "content" (world st) = true
    \/ os_Stat_IsNotExist "templates" (world st) = true ->
    run st
    = (Returned,
       mkState (world st)
         (stdout st
          ++ [if os_Stat_IsNotExist "content" (world st)
              then "Missing content/ directory. Did you run `slate init`?"
              else "Missing templates/ directory. Did you run `slate init`?"])).
Proof.
  intros st H. unfold build. apply bind_Returned.
  unfold build_load, bind, reads, Println, exit, ret.
  destruct (os_Stat_IsNotExist "content" (world st)) eqn:C; simpl.
  - reflexivity.
  - destruct H as [H|H]; [discriminate|]. rewrite H. reflexivity.
Qed.

(** X14.  [renderPage] always comes back with an error or [nil], never
    ending the build by itself, and it prints its [Generated:] line if
    and only if it returns [nil]. *)
Theorem renderPage_reports_success_only :
  forall (tmpl : Template) (page : Page) (outputPath : string)
         (st : State World),
  exists err st',
    render_page tmpl page outputPath st = (Next err, st')
    /\ stdout st'
       = (stdout st
          ++ match err with
             | None => [line ["Generated:"; outputPath]]
             | Some _ => []
             end)%list.
Proof.
  intros tmpl page outputPath st.
  unfold renderPage, bind, writes, Println, ret.
  destruct (os_MkdirAll (filepath_Dir outputPath) (world st)) as [w1 [e|]];
    simpl.
  { do 2 eexists. split; [reflexivity|]. simpl. now rewrite app_nil_r. }
  destruct (os_Create outputPath w1) as [w2 [e|]]; simpl.
  { do 2 eexists. split; [reflexivity|]. simpl. now rewrite app_nil_r. }
  destruct (tmpl_Execute tmpl outputPath (PageData page) w2) as [w3 [e|]];
    simpl.
  { do 2 eexists. split; [reflexivity|]. simpl. now rewrite app_nil_r. }
  do 2 eexists. split; reflexivity.
Qed.

Lemma renderPosts_app (postTmpl : Template) (posts1 posts2 : list Page)
    (st : State World) :
  render_posts postTmpl (posts1 ++ posts2)%list st
  = bind (render_posts postTmpl posts1)
         (fun _ => render_posts postTmpl posts2) st.
Proof.
  revert st; induction posts1 as [|p posts1 IH]; intros st.
  - reflexivity.
  - cbn [app renderPosts]. unfold bind in *.
    destruct (render_page postTmpl p ("public" ++ URL p) st)
      as [[err| |msg] st1]; trivial.
    destruct (check err "Error rendering blog post:" st1)
      as [[[]| |msg] st2]; trivial.
Qed.

(** X15.  Rendering the posts stops at the first post that fails: the
    error is printed, the build returns, and the posts after it are not
    rendered. *)
Theorem renderPosts_stops_at_first_failure :
  forall (postTmpl : Template) (posts1 posts2 : list Page) (p : Page)
         (e : error) (st st1 st2 : State World),
    render_posts postTmpl posts1 st = (Next tt, st1) ->
    render_page postTmpl p ("public" ++ URL p) st1 = (Next (Some e), st2) ->
    render_posts postTmpl (posts1 ++ p :: posts2)%list st
    = (Returned,
       mkState (world st2)
         (stdout st2 ++ [line ["Error rendering blog post:"; Error e]])).
Proof.
  intros postTmpl posts1 posts2 p e st st1 st2 H1 Hp.
  rewrite renderPosts_app, (bind_Next _ _ _ _ _ _ H1).
  cbn [renderPosts]. rewrite (bind_Next _ _ _ _ _ _ Hp).
  reflexivity.
Qed.

Lemma sort_nil (A : Type) (less : A -> A -> bool) :
  SliceContract sort_Slice -> sort_Slice A [] less = [].
Proof.
  intros C. destruct (C A [] less) as (P & _).
  now apply Permutation_nil in P.
Qed.

(** X16.  With no blog post among the pages the blog index is rendered
    all the same, from the empty list: after the home page, if there is
    one, [build] goes straight to [renderBlogIndex]. *)
Theorem build_render_empty_blog :
  forall (pages : list Page) (homeTmpl postTmpl blogIndexTmpl : Template)
         (st : State World),
    SliceContract sort_Slice ->
    (forall p, In p pages ->
       HasSuffix (Path p) "index.md" = true
       \/ Contains (Path p) "/blog/" = false) ->
    render pages (homeTmpl, postTmpl, blogIndexTmpl) st
    = bind (render_home homeTmpl pages (fst (classify pages)))
        (fun _ =>
           bind (render_blog_index blogIndexTmpl [])
             (fun err => check err "Error rendering blog index:")) st.
Proof.
  intros pages homeTmpl postTmpl blogIndexTmpl st C H.
  unfold build_render. rewrite classify_eq. cbn [fst].
  assert (E : filter isBlogPost pages = []).
  { clear - H. induction pages as [|p pages IH]; [reflexivity|]. simpl.
    assert (Q : isBlogPost p = false).
    { unfold isBlogPost, isIndex.
      destruct (H p (or_introl eq_refl)) as [X|X]; rewrite X;
        [reflexivity | apply andb_false_r]. }
    rewrite Q. apply IH. intros q Hq. apply H. now right. }
  rewrite E, (sort_nil Page newerFirst C). reflexivity.
Qed.

(** X17.  A missing or unreadable source stylesheet is passed over in
    silence: after the rendering the build ends normally, nothing is
    printed and nothing is written. *)
Theorem build_without_stylesheet :
  forall (st st1 st2 : State World)
         (loaded : list Page * (Template * Template * Template))
         (e : error),
    load st = (Next loaded, st1) ->
    render (fst loaded) (snd loaded) st1 = (Next tt, st2) ->
    os_ReadFile "static/styles.css" (world st2) = Err e ->
    run st = (Next tt, st2).
Proof.
  intros st st1 st2 loaded e HL HR HE. unfold build.
  rewrite (bind_Next _ _ _ _ _ _ HL), (bind_Next _ _ _ _ _ _ HR).
  unfold copy_static, bind, reads. rewrite HE. reflexivity.
Qed.

End BuildMore.

Lemma build_aborts_before_rendering_witness :
  Demo.build (mkState Demo.disk_without_templates [])
  = (Returned,
     mkState Demo.disk_without_templates
       ["Found markdown files:"; " - content/blog/hello.md";
        " - content/index.md";
        "Error parsing home.html template: open templates/home.html: no such file or directory"])
  /\ world
       (mkState Demo.disk_without_templates
          ["Found markdown files:"; " - content/blog/hello.md";
           " - content/index.md";
           "Error parsing home.html template: open templates/home.html: no such file or directory"])
     = world (mkState Demo.disk_without_templates []).
Proof.
  apply (build_aborts_before_rendering Demo.flat_yaml Demo.id_string
           Demo.id_string Demo.goldmark_Convert Demo.World Demo.os_ReadFile
           Demo.os_Stat_IsNotExist Demo.os_Lstat Demo.os_MkdirAll
           Demo.os_Create Demo.os_WriteFile Demo.id_string string
           Demo.os_ReadFile Demo.tmpl_Execute Demo.sort_Slice).
  vm_compute. reflexivity.
Defined.

Lemma build_missing_directory_witness :
  build Demo.flat_yaml Demo.id_string Demo.id_string Demo.goldmark_Convert
    Demo.World Demo.os_ReadFile
    (fun name _ => String.eqb name "templates")
    Demo.os_Lstat Demo.os_MkdirAll Demo.os_Create Demo.os_WriteFile
    Demo.id_string string Demo.os_ReadFile Demo.tmpl_Execute Demo.sort_Slice
    (mkState Demo.disk_without_templates [])
  = (Returned,
     mkState Demo.disk_without_templates
       ([] ++ ["Missing templates/ directory. Did you run `slate init`?"])).
Proof.
  apply (build_missing_directory Demo.flat_yaml Demo.id_string
           Demo.id_string Demo.goldmark_Convert Demo.World Demo.os_ReadFile
           (fun name _ => String.eqb name "templates")
           Demo.os_Lstat Demo.os_MkdirAll Demo.os_Create Demo.os_WriteFile
           Demo.id_string string Demo.os_ReadFile Demo.tmpl_Execute
           Demo.sort_Slice (mkState Demo.disk_without_templates [])).
  right. reflexivity.
Defined.

Lemma renderPosts_stops_at_first_failure_witness :
  let post name := mkPage ("content/blog/" ++ name ++ ".md")
                     ("/blog/" ++ name ++ ".html") name zeroTime "" in
  renderPosts Demo.World Demo.os_MkdirAll Demo.os_Create_full Demo.id_string
    string Demo.tmpl_Execute "post"
    ([post "a"] ++ post "b" :: [post "c"]) (mkState [] [])
  = (Returned,
     mkState [("public/blog/a.html", "post"); ("public/blog/a.html", "")]
       (["Generated: public/blog/a.html"]
        ++ ["Error rendering blog post: open public/blog/b.html: no space left on device"])).
Proof.
  cbv zeta.
  apply (renderPosts_stops_at_first_failure Demo.World Demo.os_MkdirAll
           Demo.os_Create_full Demo.id_string string Demo.tmpl_Execute "post"
           [mkPage "content/blog/a.md" "/blog/a.html" "a" zeroTime ""]
           [mkPage "content/blog/c.md" "/blog/c.html" "c" zeroTime ""]
           (mkPage "content/blog/b.md" "/blog/b.html" "b" zeroTime "")
           (ErrMsg "open public/blog/b.html: no space left on device")
           (mkState [] [])
           (mkState [("public/blog/a.html", "post"); ("public/blog/a.html", "")]
              ["Generated: public/blog/a.html"])
           (mkState [("public/blog/a.html", "post"); ("public/blog/a.html", "")]
              ["Generated: public/blog/a.html"]));
    vm_compute; reflexivity.
Defined.

Lemma build_render_empty_blog_witness :
  let pages := [mkPage "content/index.md" "/index.html" "Home" zeroTime "";
                mkPage "content/about.md" "/about.html" "About" zeroTime ""] in
  build_render Demo.World Demo.os_MkdirAll Demo.os_Create Demo.id_string
    string Demo.tmpl_Execute Demo.sort_Slice pages ("home", "post", "index")
    (mkState [] [])
  = bind (renderHome Demo.World Demo.os_MkdirAll Demo.os_Create
            Demo.id_string string Demo.tmpl_Execute "home" pages
            (fst (classify pages)))
      (fun _ =>
         bind (renderBlogIndex Demo.World Demo.os_MkdirAll Demo.os_Create
                 string Demo.tmpl_Execute "index" [])
           (fun err => check err "Error rendering blog index:"))
      (mkState [] []).
Proof.
  cbv zeta.
  apply (build_render_empty_blog Demo.World Demo.os_MkdirAll Demo.os_Create
           Demo.id_string string Demo.tmpl_Execute Demo.sort_Slice).
  - apply Demo_sort_Slice_contract.
  - intros p [<-|[<-|[]]]; [left | right]; vm_compute; reflexivity.
Defined.

Lemma build_without_stylesheet_witness :
  Demo.build (mkState Demo.disk_without_stylesheet [])
  = (Next tt,
     mkState
       [("public/blog/index.html", "blog index");
        ("public/blog/index.html", "");
        ("public/blog/hello.html", "post");
        ("public/blog/hello.html", ""); ("public/index.html", "home");
        ("public/index.html", ""); ("content/index.md", "# Welcome");
        ("content/blog/hello.md", Demo.hello_md);
        ("templates/home.html", "home"); ("templates/post.html", "post");
        ("templates/blog_index.html", "blog index")]
       ["Found markdown files:"; " - content/blog/hello.md";
        " - content/index.md"; "Generated: public/index.html";
        "Generated: public/blog/hello.html";
        "Generated: public/blog/index.html"]).
Proof.
  eapply (build_without_stylesheet Demo.flat_yaml Demo.id_string
            Demo.id_string Demo.goldmark_Convert Demo.World Demo.os_ReadFile
            Demo.os_Stat_IsNotExist Demo.os_Lstat Demo.os_MkdirAll
            Demo.os_Create Demo.os_WriteFile Demo.id_string string
            Demo.os_ReadFile Demo.tmpl_Execute Demo.sort_Slice).
  - lazy. reflexivity.
  - lazy. reflexivity.
  - lazy. reflexivity.
Defined.

(** ** Pages that are neither the home page nor blog posts *)

Lemma last_index_app {A} (f : A -> bool) (l1 l2 : list A) :
  last_index f (l1 ++ l2)%list
  = match last_index f l2 with
    | Some j => Some (List.length l1 + j)%nat
    | None => last_index f l1
    end.
Proof.
  induction l1 as [|x l1 IH]; simpl.
  - now destruct (last_index f l2).
  - rewrite IH. destruct (last_index f l2) as [j|]; reflexivity.
Qed.

Lemma homeOf_nth (pages : list Page) (i : nat) :
  homeOf pages i
  = option_map (fun p => set_URL p "/index.html") (nth_error pages i).
Proof. apply nth_error_update_at. Qed.

(** The home page that is rendered does not change when a page that is
    no index page is taken out of the list. *)
Lemma homeOf_without (pages1 pages2 : list Page) (p : Page) :
  isIndex p = false ->
  match last_index isIndex (pages1 ++ p :: pages2)%list with
  | Some i => homeOf (pages1 ++ p :: pages2)%list i
  | None => None
  end
  = match last_index isIndex (pages1 ++ pages2)%list with
    | Some i => homeOf (pages1 ++ pages2)%list i
    | None => None
    end.
Proof.
  intros X. rewrite !last_index_app. cbn [last_index]. rewrite X.
  destruct (last_index isIndex pages2) as [j|] eqn:E2.
  - rewrite !homeOf_nth.
    rewrite !nth_error_app2 by lia.
    replace (List.length pages1 + Datatypes.S j - List.length pages1)%nat
      with (Datatypes.S j) by lia.
    replace (List.length pages1 + j - List.length pages1)%nat with j by lia.
    reflexivity.
  - destruct (last_index isIndex pages1) as [i|] eqn:E1; [|reflexivity].
    rewrite !homeOf_nth.
    assert (L : (i < List.length pages1)%nat).
    { apply last_index_Some in E1. destruct E1 as (q & N & _).
      apply nth_error_Some. now rewrite N. }
    now rewrite !nth_error_app1 by exact L.
Qed.

Section OtherPages.

Variable World : Type.
Variable os_MkdirAll : string -> World -> World * option error.
Variable os_Create : string -> World -> World * option error.
Variable filepath_Dir : string -> string.
Variable Template : Type.
Variable tmpl_Execute : Template -> string -> tmplData -> World
                        -> World * option error.
Variable sort_Slice : forall A : Type, list A -> (A -> A -> bool) -> list A.

Local Abbreviation render :=
  (build_render World os_MkdirAll os_Create filepath_Dir Template
     tmpl_Execute sort_Slice).
Local Abbreviation render_home :=
  (renderHome World os_MkdirAll os_Create filepath_Dir Template tmpl_Execute).

Local Abbreviation render_page :=
  (renderPage World os_MkdirAll os_Create filepath_Dir Template tmpl_Execute).

(** What [build] renders for the home page, by the page alone. *)
Lemma renderHome_classified (homeTmpl : Template) (pages : list Page) :
  render_home homeTmpl pages (last_index isIndex pages)
  = match match last_index isIndex pages with
          | Some i => homeOf pages i
          | None => None
          end with
    | Some home =>
        bind (render_page homeTmpl home "public/index.html")
          (fun err => check err "Error rendering home page:")
    | None => ret tt
    end.
Proof.
  destruct (last_index isIndex pages) as [i|] eqn:E; [|reflexivity].
  apply last_index_Some in E. destruct E as (q & N & _).
  unfold renderHome. rewrite homeOf_nth, N. reflexivity.
Qed.

(** X18.  A page whose path neither ends in [index.md] nor contains
    [/blog/] plays no part in rendering: with it or without it in the
    list of pages, [build] renders the same home page, the same posts and
    the same blog index.  Such pages are loaded and never written. *)
Theorem build_render_ignores_other_pages :
  forall (pages1 pages2 : list Page) (p : Page)
         (tmpls : Template * Template * Template) (st : State World),
    HasSuffix (Path p) "index.md" = false ->
    Contains (Path p) "/blog/" = false ->
    render (pages1 ++ p :: pages2)%list tmpls st
    = render (pages1 ++ pages2)%list tmpls st.
Proof.
  intros pages1 pages2 p [[homeTmpl postTmpl] blogIndexTmpl] st X B.
  unfold build_render. rewrite !classify_eq.
  assert (F : filter isBlogPost (pages1 ++ p :: pages2)
              = filter isBlogPost (pages1 ++ pages2)).
  { rewrite !filter_app. simpl. unfold isBlogPost at 2. rewrite B.
    now rewrite andb_false_r. }
  rewrite F, !renderHome_classified, (homeOf_without pages1 pages2 p X).
  reflexivity.
Qed.

End OtherPages.

Lemma build_render_ignores_other_pages_witness :
  let page path := mkPage path (pathToURL path) path zeroTime "" in
  build_render Demo.World Demo.os_MkdirAll Demo.os_Create Demo.id_string
    string Demo.tmpl_Execute Demo.sort_Slice
    ([page "content/blog/hello.md"] ++ page "content/about.md"
     :: [page "content/index.md"])
    ("home", "post", "index") (mkState [] [])
  = build_render Demo.World Demo.os_MkdirAll Demo.os_Create Demo.id_string
      string Demo.tmpl_Execute Demo.sort_Slice
      ([page "content/blog/hello.md"] ++ [page "content/index.md"])
      ("home", "post", "index") (mkState [] []).
Proof.
  cbv zeta.
  apply (build_render_ignores_other_pages Demo.World Demo.os_MkdirAll
           Demo.os_Create Demo.id_string string Demo.tmpl_Execute
           Demo.sort_Slice);
    vm_compute; reflexivity.
Defined.

(** ** From a file under the blog directory to its output file *)

Lemma Contains_middle (pre sep post : string) :
  Contains (pre ++ sep ++ post) sep = true.
Proof.
  unfold Contains. apply Z.leb_le.
  pose proof (Index_lower_bound (pre ++ sep ++ post) sep) as L.
  destruct (Z.eq_dec (Index (pre ++ sep ++ post) sep) (-1)) as [E|E]; [|lia].
  exfalso. exact (proj1 (Index_absent _ _) E pre post eq_refl).
Qed.

(** X19.  A Markdown file [content/blog/<name>.md] that is not an index
    file is a blog post, and the output file [build] renders it to, the
    string ["public"] followed by its URL, is [public/blog/<name>.html]:
    the output mirrors the source with the extension swapped. *)
Theorem blog_post_output_path :
  forall (name title content : string) (date : Time),
    let path := "content/blog/" ++ name ++ ".md" in
    let post := mkPage path (pathToURL path) title date content in
    HasSuffix path "index.md" = false ->
    classify [post] = (None, [post])
    /\ "public" ++ URL post = "public/blog/" ++ name ++ ".html".
Proof.
  intros name title content date path post X. split.
  - rewrite classify_eq. cbn [last_index filter].
    unfold isBlogPost, isIndex. cbn [Path post]. rewrite X. cbn [negb andb].
    change path with ("content" ++ "/blog/" ++ name ++ ".md").
    now rewrite Contains_middle.
  - cbn [URL post].
    change path with ("content" ++ ("/blog/" ++ name) ++ ".md").
    rewrite pathToURL_md. reflexivity.
Qed.

Lemma blog_post_output_path_witness :
  classify [mkPage "content/blog/hello.md" (pathToURL "content/blog/hello.md")
              "Hello World" (mkTime 2025 1 17) "<p>Body text</p>"]
  = (None,
     [mkPage "content/blog/hello.md" (pathToURL "content/blog/hello.md")
        "Hello World" (mkTime 2025 1 17) "<p>Body text</p>"])
  /\ "public"
     ++ URL (mkPage "content/blog/hello.md"
               (pathToURL "content/blog/hello.md") "Hello World"
               (mkTime 2025 1 17) "<p>Body text</p>")
     = "public/blog/" ++ "hello" ++ ".html".
Proof.
  apply (blog_post_output_path "hello" "Hello World" "<p>Body text</p>"
           (mkTime 2025 1 17)).
  vm_compute. reflexivity.
Defined.

(** ** Project scaffolding *)

Section InitFacts.

Variable World : Type.
Variable os_MkdirAll : string -> World -> World * option error.
Variable os_WriteFile : string -> string -> World -> World * option error.
Variable os_Stat_ok : string -> World -> bool.
Variable starterIndexMd : string.
Variable starterBlogPost : string.
Variable starterHomeTemplate : string.
Variable starterPostTemplate : string.
Variable starterBlogIndexTemplate : string.
Variable starterCSS : string.

Local Abbreviation create_dirs := (createDirs World os_MkdirAll).
Local Abbreviation create_files := (createFiles World os_WriteFile os_Stat_ok).
Local Abbreviation init :=
  (initProject World os_MkdirAll os_WriteFile os_Stat_ok).
Local Abbreviation starter_files :=
  (starterFiles starterIndexMd starterBlogPost starterHomeTemplate
     starterPostTemplate starterBlogIndexTemplate starterCSS).

Lemma createFiles_all_exist (entries : list (string * string)) :
  forall st : State World,
    (forall e, In e entries -> os_Stat_ok (fst e) (world st) = true) ->
    create_files entries st
    = (Next tt,
       mkState (world st)
         (stdout st
          ++ map (fun e => line ["Skipped (exists):"; fst e]) entries)).
Proof.
  induction entries as [|[path content] entries IH]; intros st H.
  - simpl. rewrite app_nil_r. now destruct st.
  - pose proof (H (path, content) (or_introl eq_refl)) as Hp.
    cbn [fst] in Hp.
    cbn [createFiles]. unfold bind at 1. unfold reads at 1.
    rewrite Hp.
    unfold bind at 1. unfold Println at 1.
    rewrite IH by (intros e He; apply H; now right).
    cbn [world stdout map fst]. now rewrite <- app_assoc.
Qed.

Lemma createFiles_app (entries1 entries2 : list (string * string))
    (st : State World) :
  create_files (entries1 ++ entries2)%list st
  = bind (create_files entries1) (fun _ => create_files entries2) st.
Proof.
  revert st; induction entries1 as [|[path content] entries1 IH]; intros st.
  - reflexivity.
  - cbn [app createFiles]. unfold bind, reads, writes, Println, check in *.
    destruct (os_Stat_ok path (world st)).
    + apply IH.
    + destruct (os_WriteFile path content (world st)) as [w [e|]]; simpl;
        [reflexivity | apply IH].
Qed.

(** X20.  Scaffolding a project that already has all six starter files
    writes no file: in whatever order Go's [range] runs over the map,
    each file is reported as skipped, the closing message is printed, and
    the file system is as the directory loop left it. *)
Theorem initProject_keeps_existing_files :
  forall (order : list (string * string)) (st st1 : State World),
    Permutation starter_files order ->
    create_dirs starterDirs st = (Next tt, st1) ->
    (forall path content,
       In (path, content) starter_files ->
       os_Stat_ok path (world st1) = true) ->
    init order st
    = (Next tt,
       mkState (world st1)
         (stdout st1
          ++ map (fun e => line ["Skipped (exists):"; fst e]) order
          ++ [nl ++ "Project initialized! Run `slate build` to generate your site."])).
Proof.
  intros order st st1 P HD HE. unfold initProject.
  rewrite (bind_Next _ _ _ _ _ _ HD).
  unfold bind at 1. rewrite createFiles_all_exist.
  - unfold Println. cbn [world stdout]. now rewrite <- app_assoc.
  - intros [path content] He. apply (HE path content).
    now apply (Permutation_in _ (Permutation_sym P)).
Qed.

(** X21.  Scaffolding stops at the first missing file that cannot be
    written: the error is printed, files later in the iteration are
    neither created nor reported, and the closing message is not
    printed. *)
Theorem initProject_stops_on_write_error :
  forall (order1 order2 : list (string * string)) (path content : string)
         (e : error) (w2 : World) (st st0 st1 : State World),
    create_dirs starterDirs st = (Next tt, st0) ->
    create_files order1 st0 = (Next tt, st1) ->
    os_Stat_ok path (world st1) = false ->
    os_WriteFile path content (world st1) = (w2, Some e) ->
    init (order1 ++ (path, content) :: order2)%list st
    = (Returned,
       mkState w2 (stdout st1 ++ [line ["Error creating file:"; Error e]])).
Proof.
  intros order1 order2 path content e w2 st st0 st1 HD H1 HS HW.
  unfold initProject. rewrite (bind_Next _ _ _ _ _ _ HD).
  apply bind_Returned. rewrite createFiles_app, (bind_Next _ _ _ _ _ _ H1).
  cbn [createFiles]. unfold bind, reads, writes, check, Println, exit.
  rewrite HS, HW. reflexivity.
Qed.

End InitFacts.

Lemma initProject_keeps_existing_files_witness :
  let files := starterFiles "# Welcome" Demo.hello_md "home" "post"
                 "blog index" "body {}" in
  initProject Demo.World Demo.os_MkdirAll Demo.os_WriteFile Demo.os_Stat_ok
    (rev files) (mkState Demo.disk [])
  = (Next tt,
     mkState Demo.disk
       (["Created: content/"; "Created: content/blog/";
         "Created: templates/"; "Created: static/"]
        ++ map (fun e => line ["Skipped (exists):"; fst e]) (rev files)
        ++ [nl ++ "Project initialized! Run `slate build` to generate your site."])).
Proof.
  cbv zeta.
  apply (initProject_keeps_existing_files Demo.World Demo.os_MkdirAll
           Demo.os_WriteFile Demo.os_Stat_ok "# Welcome" Demo.hello_md
           "home" "post" "blog index" "body {}"
           (rev (starterFiles "# Welcome" Demo.hello_md "home" "post"
                   "blog index" "body {}"))
           (mkState Demo.disk [])
           (mkState Demo.disk
              ["Created: content/"; "Created: content/blog/";
               "Created: templates/"; "Created: static/"])).
  - apply Permutation_rev.
  - vm_compute. reflexivity.
  - intros path content H. simpl in H.
    repeat (destruct H as [H|H]; [injection H as <- _; vm_compute; reflexivity|]).
    destruct H.
Defined.

Lemma initProject_stops_on_write_error_witness :
  initProject Demo.World Demo.os_MkdirAll Demo.os_WriteFile_readonly
    Demo.os_Stat_ok
    ([("content/index.md", "# Welcome")] ++ ("content/about.md", "About")
     :: [("static/styles.css", "body {}")])
    (mkState Demo.disk [])
  = (Returned,
     mkState Demo.disk
       (["Created: content/"; "Created: content/blog/";
         "Created: templates/"; "Created: static/";
         "Skipped (exists): content/index.md"]
        ++ [line ["Error creating file:";
                  Error (ErrMsg "open content/about.md: read-only file system")]])).
Proof.
  apply (initProject_stops_on_write_error Demo.World Demo.os_MkdirAll
           Demo.os_WriteFile_readonly Demo.os_Stat_ok
           [("content/index.md", "# Welcome")]
           [("static/styles.css", "body {}")]
           "content/about.md" "About"
           (ErrMsg "open content/about.md: read-only file system")
           Demo.disk (mkState Demo.disk [])
           (mkState Demo.disk
              ["Created: content/"; "Created: content/blog/";
               "Created: templates/"; "Created: static/"])
           (mkState Demo.disk
              ["Created: content/"; "Created: content/blog/";
               "Created: templates/"; "Created: static/";
               "Skipped (exists): content/index.md"]));
    vm_compute; reflexivity.
Defined.

(** ** Title deriver *)

Lemma ToTitle_not_lower (r : ascii) : GoTitle.isLower (GoTitle.ToTitle r) = false.
Proof.
  unfold GoTitle.ToTitle. destruct (GoTitle.isLower r) eqn:L; [|exact L].
  unfold GoTitle.isLower in *. apply andb_true_iff in L.
  destruct L as (L1 & L2). apply Nat.leb_le in L1, L2.
  rewrite nat_ascii_embedding by lia.
  apply andb_false_iff. left. apply Nat.leb_gt. lia.
Qed.

Lemma ToTitle_keeps_plain (r : ascii) :
  Ascii.eqb r "_" = false -> Ascii.eqb r "-" = false ->
  Ascii.eqb (GoTitle.ToTitle r) "_" = false
  /\ Ascii.eqb (GoTitle.ToTitle r) "-" = false.
Proof.
  intros U D. unfold GoTitle.ToTitle.
  destruct (GoTitle.isLower r) eqn:L; [|now split].
  unfold GoTitle.isLower in L. apply andb_true_iff in L.
  destruct L as (L1 & L2). apply Nat.leb_le in L1, L2.
  split; apply Ascii.eqb_neq; intros E;
    apply (f_equal nat_of_ascii) in E;
    rewrite nat_ascii_embedding in E by lia;
    [change (nat_of_ascii "_") with 95%nat in E
    |change (nat_of_ascii "-") with 45%nat in E]; lia.
Qed.

Lemma ToTitle_space (r : ascii) : GoTitle.ToTitle r = " "%char -> r = " "%char.
Proof.
  intros E. pose proof (ToTitle_not_lower r) as N.
  unfold GoTitle.ToTitle in E. destruct (GoTitle.isLower r) eqn:L; [|exact E].
  exfalso. unfold GoTitle.isLower in L. apply andb_true_iff in L.
  destruct L as (L1 & L2). apply Nat.leb_le in L1, L2.
  apply (f_equal nat_of_ascii) in E.
  rewrite nat_ascii_embedding in E by lia.
  change (nat_of_ascii " ") with 32%nat in E. lia.
Qed.

Lemma Title_from_length (s : string) :
  forall prev, String.length (GoTitle.Title_from prev s) = String.length s.
Proof.
  induction s as [|r s IH]; intros prev; simpl; [reflexivity | now rewrite IH].
Qed.

Lemma ReplaceAll1_length (s : string) (old new : ascii) :
  String.length (ReplaceAll1 s old new) = String.length s.
Proof.
  induction s as [|c s IH]; simpl; [reflexivity | now rewrite IH].
Qed.

(** No byte of a title is a lower-case letter right after a space. *)
Lemma Title_from_after_space (s : string) :
  forall prev pre c post,
    GoTitle.Title_from prev s = pre ++ String " " (String c post) ->
    GoTitle.isLower c = false.
Proof.
  induction s as [|r s IH]; intros prev pre c post H.
  - destruct pre; discriminate.
  - cbn [GoTitle.Title_from] in H. destruct pre as [|p pre].
    + cbn [append] in H. injection H as X T.
      assert (R : r = " "%char).
      { destruct (GoTitle.isSeparator prev); [now apply ToTitle_space | exact X]. }
      subst r. destruct s as [|r2 s]; [discriminate|].
      cbn [GoTitle.Title_from] in T. injection T as <- _.
      change (GoTitle.isSeparator " ") with true. cbn iota.
      apply ToTitle_not_lower.
    + cbn [append] in H. injection H as _ T. exact (IH _ _ _ _ T).
Qed.

(** A byte of the title is a byte of the text, put in title case or not. *)
Lemma Title_from_bytes (s : string) :
  forall prev pre c post,
    GoTitle.Title_from prev s = pre ++ String c post ->
    exists pre0 c0 post0,
      s = pre0 ++ String c0 post0 /\ (c = c0 \/ c = GoTitle.ToTitle c0).
Proof.
  induction s as [|r s IH]; intros prev pre c post H.
  - destruct pre; discriminate.
  - cbn [GoTitle.Title_from] in H. destruct pre as [|p pre].
    + cbn [append] in H. injection H as X _. exists "", r, s.
      split; [reflexivity|].
      destruct (GoTitle.isSeparator prev); [right | left]; now symmetry.
    + cbn [append] in H. injection H as _ T.
      destruct (IH _ _ _ _ T) as (pre0 & c0 & post0 & -> & Q).
      now exists (String r pre0), c0, post0.
Qed.

Lemma ReplaceAll1_bytes (s : string) (old new : ascii) :
  forall pre c post,
    ReplaceAll1 s old new = pre ++ String c post ->
    c = new
    \/ (Ascii.eqb c old = false
        /\ exists pre0 post0, s = pre0 ++ String c post0).
Proof.
  induction s as [|x s IH]; intros pre c post H.
  - destruct pre; discriminate.
  - cbn [ReplaceAll1] in H. destruct pre as [|p pre].
    + cbn [append] in H. injection H as X _.
      destruct (Ascii.eqb x old) eqn:E; [now left|].
      right. subst c. split; [exact E|]. now exists "", s.
    + cbn [append] in H. injection H as _ T.
      destruct (IH _ _ _ T) as [Q|(Q & pre0 & post0 & ->)]; [now left|].
      right. split; [exact Q|]. now exists (String x pre0), post0.
Qed.

Lemma stripTrailingSlashes_keeps (s : string) (c : ascii) :
  Ascii.eqb c "/" = false ->
  GoTitle.stripTrailingSlashes (s ++ String c "") = s ++ String c "".
Proof.
  intros C. induction s as [|x s IH]; simpl.
  - now rewrite C.
  - rewrite IH. destruct (s ++ String c "") eqn:E.
    + destruct s; discriminate.
    + now rewrite andb_false_r.
Qed.

Lemma hasSlash_append (s t : string) :
  GoTitle.hasSlash (s ++ t) = GoTitle.hasSlash s || GoTitle.hasSlash t.
Proof.
  induction s as [|x s IH]; simpl; [reflexivity|].
  now rewrite IH, orb_assoc.
Qed.

Lemma lastElement_after_slash (dir name : string) :
  GoTitle.hasSlash name = false ->
  GoTitle.lastElement (dir ++ "/" ++ name) = name.
Proof.
  intros H. induction dir as [|x dir IH].
  - cbn [append GoTitle.lastElement]. now rewrite H.
  - cbn [append GoTitle.lastElement].
    rewrite hasSlash_append. cbn [GoTitle.hasSlash append].
    rewrite Ascii.eqb_refl, orb_true_r. exact IH.
Qed.

(** The base name of a file in a directory is the file's name. *)
Lemma Base_of_file (dir stem : string) :
  GoTitle.hasSlash stem = false ->
  GoTitle.Base (dir ++ "/" ++ stem ++ ".md") = stem ++ ".md".
Proof.
  intros H. unfold GoTitle.Base.
  assert (N : String.eqb (dir ++ "/" ++ stem ++ ".md") "" = false).
  { destruct dir; reflexivity. }
  rewrite N.
  assert (E : dir ++ "/" ++ stem ++ ".md"
              = (dir ++ "/" ++ stem ++ ".m") ++ String "d" "").
  { rewrite !string_append_assoc. reflexivity. }
  assert (S : GoTitle.stripTrailingSlashes (dir ++ "/" ++ stem ++ ".md")
              = dir ++ "/" ++ stem ++ ".md").
  { rewrite E. now apply stripTrailingSlashes_keeps. }
  assert (L : GoTitle.lastElement (dir ++ "/" ++ stem ++ ".md")
              = stem ++ ".md").
  { apply lastElement_after_slash. rewrite hasSlash_append, H. reflexivity. }
  cbv zeta. rewrite S, L. destruct stem; reflexivity.
Qed.

(** X22.  For a Markdown file [<dir>/<stem>.md] whose stem is ASCII text
    without a slash, run through [filepath.Base] and [strings.Title], the
    derived title has as many bytes as the stem, holds no underscore and
    no hyphen, and starts every word with something other than a
    lower-case letter: neither its first byte nor a byte after a space is
    one. *)
Theorem extractTitle_capitalises_words :
  forall dir stem : string,
    GoTitle.hasSlash stem = false ->
    GoTitle.isASCII stem = true ->
    let title :=
      extractTitle GoTitle.Base GoTitle.Title (dir ++ "/" ++ stem ++ ".md") in
    String.length title = String.length stem
    /\ (forall pre c post,
          title = pre ++ String c post ->
          Ascii.eqb c "_" = false /\ Ascii.eqb c "-" = false)
    /\ (forall c post, title = String c post -> GoTitle.isLower c = false)
    /\ (forall pre c post,
          title = pre ++ String " " (String c post) ->
          GoTitle.isLower c = false).
Proof.
  intros dir stem H _ title.
  assert (E : title
              = GoTitle.Title_from " "
                  (ReplaceAll1 (ReplaceAll1 stem "_" " ") "-" " ")).
  { unfold title, extractTitle. rewrite (Base_of_file dir stem H).
    now rewrite TrimSuffix_append. }
  rewrite E. split; [|split; [|split]].
  - now rewrite Title_from_length, !ReplaceAll1_length.
  - intros pre c post T.
    apply Title_from_bytes in T. destruct T as (pre0 & c0 & post0 & R & Q).
    assert (P : Ascii.eqb c0 "_" = false /\ Ascii.eqb c0 "-" = false).
    { apply ReplaceAll1_bytes in R.
      destruct R as [->|(D & pre1 & post1 & R)]; [now split|].
      split; [|exact D].
      apply ReplaceAll1_bytes in R.
      destruct R as [->|(U & _)]; [reflexivity | exact U]. }
    destruct Q as [->| ->]; [exact P|].
    now apply ToTitle_keeps_plain.
  - intros c post T.
    destruct (ReplaceAll1 (ReplaceAll1 stem "_" " ") "-" " ") as [|r s];
      [discriminate|].
    cbn [GoTitle.Title_from] in T. injection T as <- _.
    apply ToTitle_not_lower.
  - intros pre c post T. exact (Title_from_after_space _ _ _ _ _ T).
Qed.

Lemma extractTitle_capitalises_words_witness :
  let title := extractTitle GoTitle.Base GoTitle.Title
                 ("content/blog" ++ "/" ++ "my_first-post" ++ ".md") in
  String.length title = String.length "my_first-post"
  /\ (forall pre c post,
        title = pre ++ String c post ->
        Ascii.eqb c "_" = false /\ Ascii.eqb c "-" = false)
  /\ (forall c post, title = String c post -> GoTitle.isLower c = false)
  /\ (forall pre c post,
        title = pre ++ String " " (String c post) ->
        GoTitle.isLower c = false).
Proof.
  apply (extractTitle_capitalises_words "content/blog" "my_first-post");
    vm_compute; reflexivity.
Defined.

(** The example of the source's comment, with underscores added. *)
Example extractTitle_example :
  extractTitle GoTitle.Base GoTitle.Title "content/blog/my_first-post.md"
  = "My First Post".
Proof. vm_compute. reflexivity. Qed.

(** ** The blog index renderer *)

(** X23.  [renderBlogIndex] always comes back with an error or [nil],
    never ending the build by itself, and prints
    [Generated: public/blog/index.html] if and only if it returns [nil];
    when the directory cannot be made it does not go on to create the
    file. *)
Theorem renderBlogIndex_reports_success_only :
  forall (World : Type)
         (os_MkdirAll os_Create : string -> World -> World * option error)
         (Template : Type)
         (tmpl_Execute : Template -> string -> tmplData -> World
                         -> World * option error)
         (tmpl : Template) (posts : list Page) (st : State World),
  exists err st',
    renderBlogIndex World os_MkdirAll os_Create Template tmpl_Execute
      tmpl posts st = (Next err, st')
    /\ stdout st'
       = (stdout st
          ++ match err with
             | None => ["Generated: public/blog/index.html"]
             | Some _ => []
             end)%list
    /\ (forall e, snd (os_MkdirAll "public/blog" (world st)) = Some e ->
          err = Some e
          /\ world st' = fst (os_MkdirAll "public/blog" (world st))).
Proof.
  intros World os_MkdirAll os_Create Template tmpl_Execute tmpl posts st.
  unfold renderBlogIndex, bind, writes, Println, ret.
  destruct (os_MkdirAll "public/blog" (world st)) as [w1 [e|]]; simpl.
  { do 2 eexists. split; [reflexivity|]. simpl. rewrite app_nil_r.
    split; [reflexivity|]. intros e' [= <-]. now split. }
  destruct (os_Create "public/blog/index.html" w1) as [w2 [e|]]; simpl.
  { do 2 eexists. split; [reflexivity|]. simpl. rewrite app_nil_r.
    split; [reflexivity | discriminate]. }
  destruct (tmpl_Execute tmpl "public/blog/index.html" (PostsData posts) w2)
    as [w3 [e|]]; simpl.
  { do 2 eexists. split; [reflexivity|]. simpl. rewrite app_nil_r.
    split; [reflexivity | discriminate]. }
  do 2 eexists. split; [reflexivity|]. split; [reflexivity | discriminate].
Qed.
